(** * Dialogue manager of the chatbot framework: slot filling, intent
      resolution, API trigger and state persistence.

    Shallow embedding of
      - [app/bot/dialogue_manager/dialogue_manager.py] (class [DialogueManager]),
      - [app/bot/dialogue_manager/utils.py] ([split_sentence]),
      - [app/bot/dialogue_manager/http_client.py] ([call_api]),
      - [app/bot/memory/models.py] (class [State]),
      - [app/bot/memory/memory_saver_mongo.py] (class [MemorySaverMongo]).

    Python dictionaries are finite maps ([gmap]), Python lists are lists,
    [None]-able values are options, Python floats are binary64 floats and a
    raised exception is the [Raise] case of [result]. *)

From Stdlib Require Import Floats ZArith Ascii.
From stdpp Require Import gmap strings list fin_maps.
From stdpp Require pretty.

Set Default Proof Using "Type".

(** ** Exceptions and fallible computations *)

Inductive exn : Type :=
| AttributeError
| KeyError
| TypeError
| IndexError
| ValueError (msg : string)
| TemplateError (msg : string)
| APICallExcetion (msg : string)
| DialogueManagerException (msg : string)
| OtherError (msg : string).

Inductive result (A : Type) : Type :=
| Ok (a : A)
| Raise (e : exn).
Arguments Ok {A} a.
Arguments Raise {A} e.

#[global] Instance result_ret : MRet result := fun A a => Ok a.
#[global] Instance result_bind : MBind result := fun A B k r =>
  match r with
  | Ok a => k a
  | Raise e => Raise e
  end.

(** ** Python string operations *)

(** [str.split(sep)] for a non-empty separator: the text is scanned from the
    left, every occurrence of [sep] closes the current piece and the scan
    resumes after it ([skip] counts the characters of the occurrence that are
    still to be passed over). *)
Fixpoint split_go (sep : string) (skip : nat) (cur : string) (s : string)
  : list string :=
  match s with
  | EmptyString => [cur]
  | String c s' =>
      match skip with
      | S k => split_go sep k cur s'
      | O =>
          if String.prefix sep s
          then cur :: split_go sep (String.length sep - 1) EmptyString s'
          else split_go sep 0 (cur +:+ String c EmptyString) s'
      end
  end.

Definition split (sep : string) (s : string) : list string :=
  split_go sep 0 EmptyString s.

(** [str.startswith(p)] *)
Definition startswith (p s : string) : bool := String.prefix p s.

(** utils.py: [split_sentence(sentence) = sentence.split("###")] *)
Definition split_sentence (sentence : string) : list string :=
  split "###" sentence.

(** ** Data model *)

(** Modelled from the spec: the class [UserMessage] of
    [app/bot/dialogue_manager/models.py] is not part of the sources; the
    specification gives it a thread id, the raw text and a context mapping.
    [context = None] stands for a context that is not a dictionary. *)
Module UserMessage.
Record t : Type := mk {
  thread_id : string;
  text : string;
  context : option (gmap string string);
}.
End UserMessage.

(** Modelled from the spec: the class [ParameterModel] of
    [app/bot/dialogue_manager/models.py] is not part of the sources; the
    code reads its attributes [name], [type], [required] and [prompt]. *)
Module ParameterModel.
Record t : Type := mk {
  name : string;
  type : string;
  required : bool;
  prompt : string;
}.
End ParameterModel.

(** Modelled from the spec: the API details of an intent
    ([app/bot/dialogue_manager/models.py], not part of the sources):
    [get_headers()] is the [headers] field. *)
Module ApiDetails.
Record t : Type := mk {
  url : string;
  request_type : string;
  headers : list (string * string);
  is_json : bool;
  json_data : string;
}.
Definition get_headers (d : t) : list (string * string) := headers d.
End ApiDetails.

(** Modelled from the spec: the class [IntentModel] of
    [app/bot/dialogue_manager/models.py] is not part of the sources; the
    code reads [intent_id], [api_trigger], [api_details], [speech_response]
    and [parameters]. *)
Module IntentModel.
Record t : Type := mk {
  name : string;
  intent_id : string;
  api_trigger : bool;
  api_details : option ApiDetails.t;
  speech_response : string;
  parameters : list ParameterModel.t;
}.
End IntentModel.

(** One segment of a bot reply, the dictionary [{"text": msg}]. *)
Module Segment.
Record t : Type := mk { text : string }.
End Segment.

(** The dictionary [{"name": .., "type": .., "required": ..}] appended to
    [State.parameters]. *)
Module ParameterEntry.
Record t : Type := mk {
  name : string;
  type : string;
  required : bool;
}.
End ParameterEntry.

(** The predicted intent of an NLU result, [{"intent": .., "confidence": ..}]. *)
Module Predicted.
Record t : Type := mk {
  intent : string;
  confidence : float;
}.
End Predicted.

(** A dictionary with the keys ["entities"] and ["intent"]: the NLU result and
    [State.nlu].  The outer option tells whether the key is present, the inner
    one whether its value is [None]. *)
Module Nlu.
Record t : Type := mk {
  entities : option (option (gmap string string));
  intent : option (option Predicted.t);
}.
(** the empty dictionary [{}] *)
Definition empty : t := mk None None.
(** [d.get(key)]: [None] for an absent key *)
Definition get {A : Type} (field : option (option A)) : option A :=
  match field with
  | Some v => v
  | None => None
  end.
End Nlu.

(** ** The conversation state ([app/bot/memory/models.py]) *)

Module State.
Record t : Type := mk {
  thread_id : string;
  user_message : option UserMessage.t;
  bot_message : option (list Segment.t);
  nlu : Nlu.t;
  context : gmap string string;
  intent : option (gmap string string);
  parameters : list ParameterEntry.t;
  extracted_parameters : gmap string string;
  missing_parameters : list string;
  complete : bool;
  current_node : option string;
  date : Z;
}.

(** Field assignments [self.f = v]. *)
Definition set_user_message v (s : t) : t :=
  mk (thread_id s) v (bot_message s) (nlu s) (context s) (intent s)
     (parameters s) (extracted_parameters s) (missing_parameters s)
     (complete s) (current_node s) (date s).
Definition set_bot_message v (s : t) : t :=
  mk (thread_id s) (user_message s) v (nlu s) (context s) (intent s)
     (parameters s) (extracted_parameters s) (missing_parameters s)
     (complete s) (current_node s) (date s).
Definition set_nlu v (s : t) : t :=
  mk (thread_id s) (user_message s) (bot_message s) v (context s) (intent s)
     (parameters s) (extracted_parameters s) (missing_parameters s)
     (complete s) (current_node s) (date s).
Definition set_context v (s : t) : t :=
  mk (thread_id s) (user_message s) (bot_message s) (nlu s) v (intent s)
     (parameters s) (extracted_parameters s) (missing_parameters s)
     (complete s) (current_node s) (date s).
Definition set_intent v (s : t) : t :=
  mk (thread_id s) (user_message s) (bot_message s) (nlu s) (context s) v
     (parameters s) (extracted_parameters s) (missing_parameters s)
     (complete s) (current_node s) (date s).
Definition set_parameters v (s : t) : t :=
  mk (thread_id s) (user_message s) (bot_message s) (nlu s) (context s)
     (intent s) v (extracted_parameters s) (missing_parameters s)
     (complete s) (current_node s) (date s).
Definition set_extracted_parameters v (s : t) : t :=
  mk (thread_id s) (user_message s) (bot_message s) (nlu s) (context s)
     (intent s) (parameters s) v (missing_parameters s)
     (complete s) (current_node s) (date s).
Definition set_missing_parameters v (s : t) : t :=
  mk (thread_id s) (user_message s) (bot_message s) (nlu s) (context s)
     (intent s) (parameters s) (extracted_parameters s) v
     (complete s) (current_node s) (date s).
Definition set_complete v (s : t) : t :=
  mk (thread_id s) (user_message s) (bot_message s) (nlu s) (context s)
     (intent s) (parameters s) (extracted_parameters s)
     (missing_parameters s) v (current_node s) (date s).
Definition set_current_node v (s : t) : t :=
  mk (thread_id s) (user_message s) (bot_message s) (nlu s) (context s)
     (intent s) (parameters s) (extracted_parameters s)
     (missing_parameters s) (complete s) v (date s).
Definition set_date v (s : t) : t :=
  mk (thread_id s) (user_message s) (bot_message s) (nlu s) (context s)
     (intent s) (parameters s) (extracted_parameters s)
     (missing_parameters s) (complete s) (current_node s) v.

(** [State.__init__]; [now] is the value of [datetime.now(timezone.utc)].
    An argument left out in Python is [None] here, except [complete]
    (default [False]) and [current_node] (default [""]).  [x or {}] and
    [x or []] replace [None] (and the empty value) by the empty value. *)
Definition __init__ (now : Z) (thread_id : string)
    (user_message : option UserMessage.t)
    (bot_message : option (list Segment.t))
    (context : option (gmap string string))
    (intent : option (gmap string string))
    (parameters : option (list ParameterEntry.t))
    (extracted_parameters : option (gmap string string))
    (missing_parameters : option (list string))
    (complete : bool) (current_node : option string)
    (date : option Z) : t :=
  {| thread_id := thread_id;
     user_message := user_message;
     bot_message := bot_message;
     nlu := Nlu.empty;
     context := default ∅ context;
     intent := Some (default ∅ intent);
     parameters := default [] parameters;
     extracted_parameters := default ∅ extracted_parameters;
     missing_parameters := default [] missing_parameters;
     complete := complete;
     current_node := current_node;
     date := default now date |}.

(** [State.update]: [dict.update] lets the keys of the message win. *)
Definition update (now : Z) (user_message : UserMessage.t) (self : t) : t :=
  let self := set_user_message (Some user_message) self in
  let self := set_date now self in
  let self :=
    match UserMessage.context user_message with
    | Some c => set_context (c ∪ context self) self
    | None => self
    end in
  if complete self then
    let self := set_bot_message (Some []) self in
    let self := set_intent None self in
    let self := set_parameters [] self in
    let self := set_extracted_parameters ∅ self in
    let self := set_missing_parameters [] self in
    let self := set_complete false self in
    set_current_node None self
  else self.
End State.

(** ** The dialogue manager ([app/bot/dialogue_manager/dialogue_manager.py]) *)

Module DialogueManager.
Record t : Type := mk {
  intents : gmap string IntentModel.t;
  fallback_intent_id : string;
  confidence_threshold : float;
}.
End DialogueManager.

(** [_get_intent_id_and_confidence] *)
Definition _get_intent_id_and_confidence (self : DialogueManager.t)
    (current_state : State.t) (nlu_result : Nlu.t) : result (string * float) :=
  match State.user_message current_state with
  | None => Raise AttributeError
  | Some um =>
      let input_text := UserMessage.text um in
      if startswith "/" input_text then
        match split "/" input_text !! 1%nat with
        | Some intent_id => Ok (intent_id, 1.0%float)
        | None => Raise IndexError
        end
      else
        match Nlu.intent nlu_result with
        | None => Raise KeyError
        | Some None => Raise TypeError
        | Some (Some predicted) =>
            if PrimFloat.ltb (Predicted.confidence predicted)
                 (DialogueManager.confidence_threshold self)
            then Ok (DialogueManager.fallback_intent_id self, 1.0%float)
            else Ok (Predicted.intent predicted, Predicted.confidence predicted)
        end
  end.

(** The grouping loop of [_process_intent]: every entity of the NLU result is
    appended to the list kept under its name. *)
Definition group_entities (extracted_entities : gmap string string)
  : gmap string (list string) :=
  foldl (fun entities_by_type '(entity_name, entity_value) =>
           <[entity_name :=
               default [] (entities_by_type !! entity_name) ++ [entity_value]]>
             entities_by_type)
        ∅ (map_to_list extracted_entities).

Definition entry_of (param : ParameterModel.t) : ParameterEntry.t :=
  {| ParameterEntry.name := ParameterModel.name param;
     ParameterEntry.type := ParameterModel.type param;
     ParameterEntry.required := ParameterModel.required param |}.

(** The snapshot loop: one [append] for each parameter. *)
Definition snapshot_parameters (parameters : list ParameterModel.t)
    (current_state : State.t) : State.t :=
  foldl (fun s param =>
           State.set_parameters (State.parameters s ++ [entry_of param]) s)
        current_state parameters.

(** One iteration of the slot-filling loop, on the state and on
    [entities_by_type]. *)
Definition fill_parameter (param : ParameterModel.t)
    (acc : State.t * gmap string (list string))
  : result (State.t * gmap string (list string)) :=
  let '(current_state, entities_by_type) := acc in
  if bool_decide (ParameterModel.type param = "free_text")
     && bool_decide (State.current_node current_state
                     = Some (ParameterModel.name param))
  then
    match State.user_message current_state with
    | None => Raise AttributeError
    | Some um =>
        Ok (State.set_extracted_parameters
              (<[ParameterModel.name param := UserMessage.text um]>
                 (State.extracted_parameters current_state))
              current_state,
            entities_by_type)
    end
  else
    match entities_by_type !! ParameterModel.type param with
    | Some (value :: rest) =>
        Ok (State.set_extracted_parameters
              (<[ParameterModel.name param := value]>
                 (State.extracted_parameters current_state))
              current_state,
            <[ParameterModel.type param := rest]> entities_by_type)
    | _ => Ok acc
    end.

Fixpoint fill_parameters (parameters : list ParameterModel.t)
    (acc : State.t * gmap string (list string))
  : result (State.t * gmap string (list string)) :=
  match parameters with
  | [] => Ok acc
  | param :: rest => acc' ← fill_parameter param acc; fill_parameters rest acc'
  end.

(** The test of the loop of [_handle_missing_parameters]. *)
Definition is_missing (extracted_parameters : gmap string string)
    (parameter : ParameterModel.t) : bool :=
  ParameterModel.required parameter
  && bool_decide (extracted_parameters !! ParameterModel.name parameter = None).

(** [_handle_missing_parameters] *)
Definition _handle_missing_parameters (parameters : list ParameterModel.t)
    (current_state : State.t) : State.t :=
  let current_state := State.set_missing_parameters [] current_state in
  let current_state := State.set_current_node None current_state in
  let current_state := State.set_bot_message (Some []) current_state in
  let missing_parameters :=
    List.filter (is_missing (State.extracted_parameters current_state))
      parameters in
  let current_state :=
    State.set_missing_parameters
      (State.missing_parameters current_state
         ++ map ParameterModel.name missing_parameters)
      current_state in
  match missing_parameters with
  | [] => current_state
  | current_node :: _ =>
      let current_state :=
        State.set_current_node (Some (ParameterModel.name current_node))
          current_state in
      State.set_bot_message
        (Some (map Segment.mk
                 (split_sentence (ParameterModel.prompt current_node))))
        current_state
  end.

(** [not current_state.missing_parameters] *)
Definition no_missing (current_state : State.t) : bool :=
  match State.missing_parameters current_state with
  | [] => true
  | _ :: _ => false
  end.

(** [_process_intent] *)
Definition _process_intent (query_intent active_intent : IntentModel.t)
    (current_state : State.t) : result (State.t * IntentModel.t) :=
  if bool_decide (IntentModel.intent_id query_intent = "cancel") then
    let active_intent := query_intent in
    let current_state := State.set_complete true current_state in
    let current_state := State.set_parameters [] current_state in
    let current_state := State.set_extracted_parameters ∅ current_state in
    let current_state := State.set_missing_parameters [] current_state in
    let current_state := State.set_current_node None current_state in
    Ok (current_state, active_intent)
  else
    let parameters := IntentModel.parameters active_intent in
    current_state ←
      match parameters with
      | [] => Ok current_state
      | _ :: _ =>
          extracted_entities ←
            match Nlu.entities (State.nlu current_state) with
            | None => Ok ∅
            | Some None => Raise AttributeError
            | Some (Some entities) => Ok entities
            end;
          let entities_by_type := group_entities extracted_entities in
          let current_state :=
            match State.parameters current_state with
            | [] => snapshot_parameters parameters current_state
            | _ :: _ => current_state
            end in
          '(current_state, _) ←
            fill_parameters parameters (current_state, entities_by_type);
          Ok (_handle_missing_parameters parameters current_state)
      end;
    Ok (State.set_complete (no_missing current_state) current_state,
        active_intent).

(** ** The response phase *)

Definition service_unavailable : string :=
  "Service is not available. Please try again later.".

Definition segments (rendered_text : string) : list Segment.t :=
  map Segment.mk (split_sentence rendered_text).

Section ApiTrigger.
(** The external collaborators of the response phase: the value a JSON
    document parses to, the template renderer ([jinja2.Template(..)] with
    [SilentUndefined], then [render] or [render_async] on the context, the
    parameters and, when there is one, the API result), [json.loads] and the
    API invoker [call_api] of [http_client.py]. *)
Variable Json : Type.

(** The [parameters] argument of [call_api]: the parsed JSON body or the
    extracted parameters. *)
Inductive api_parameters : Type :=
| JsonBody (body : Json)
| ExtractedParameters (parameters : gmap string string).

Variable render :
  string -> gmap string string -> gmap string string -> option Json ->
  result string.
Variable json_loads : string -> result Json.
Variable call_api :
  string -> string -> list (string * string) -> api_parameters -> bool ->
  result Json.

(** [_call_intent_api] *)
Definition _call_intent_api (intent : IntentModel.t)
    (current_state : State.t) : result Json :=
  match IntentModel.api_details intent with
  | None => Raise AttributeError
  | Some api_details =>
      let headers := ApiDetails.get_headers api_details in
      rendered_url ←
        render (ApiDetails.url api_details) (State.context current_state)
          (State.extracted_parameters current_state) None;
      parameters ←
        (if ApiDetails.is_json api_details then
           request_json ←
             render (ApiDetails.json_data api_details)
               (State.context current_state)
               (State.extracted_parameters current_state) None;
           body ← json_loads request_json;
           Ok (JsonBody body)
         else
           Ok (ExtractedParameters
                 (State.extracted_parameters current_state)));
      match call_api rendered_url (ApiDetails.request_type api_details)
              headers parameters (ApiDetails.is_json api_details) with
      | Ok response => Ok response
      | Raise (APICallExcetion _) =>
          Raise (DialogueManagerException "API call failed")
      | Raise e => Raise e
      end
  end.

(** [_handle_api_trigger] *)
Definition _handle_api_trigger (intent : IntentModel.t)
    (current_state : State.t) : result State.t :=
  if IntentModel.api_trigger intent
     && bool_decide (is_Some (IntentModel.api_details intent))
  then
    match
      (api_result ← _call_intent_api intent current_state;
       rendered_text ←
         render (IntentModel.speech_response intent)
           (State.context current_state)
           (State.extracted_parameters current_state) (Some api_result);
       Ok (State.set_bot_message (Some (segments rendered_text))
             current_state))
    with
    | Ok current_state => Ok current_state
    | Raise (DialogueManagerException _) =>
        Ok (State.set_bot_message
              (Some [Segment.mk service_unavailable]) current_state)
    | Raise e => Raise e
    end
  else
    rendered_text ←
      render (IntentModel.speech_response intent)
        (State.context current_state)
        (State.extracted_parameters current_state) None;
    Ok (State.set_bot_message (Some (segments rendered_text)) current_state).

(** The request [_call_intent_api] hands to [call_api]: the rendered URL
    and the parsed JSON body or the extracted parameters. *)
Definition prepared (d : ApiDetails.t) (s : State.t) (rendered_url : string)
    (parameters : api_parameters) : Prop :=
  render (ApiDetails.url d) (State.context s)
    (State.extracted_parameters s) None = Ok rendered_url
  /\ (if ApiDetails.is_json d then
        exists (request_json : string) (body : Json),
          render (ApiDetails.json_data d) (State.context s)
            (State.extracted_parameters s) None = Ok request_json
          /\ json_loads request_json = Ok body
          /\ parameters = JsonBody body
      else parameters = ExtractedParameters (State.extracted_parameters s)).
End ApiTrigger.

Arguments JsonBody {Json} body.
Arguments ExtractedParameters {Json} parameters.

(** ** Persistence ([app/bot/memory/memory_saver_mongo.py]) *)

(** A document of the state collection: the dictionary of [State.to_dict].
    A field is [None] when the key is absent or its value is [None]; for
    [current_node], whose default in [from_dict] is not [None], the outer
    option is the presence of the key.  The [_id] that [insert_one] adds is
    left out: the projection of [get] drops it. *)
Module Document.
Record t : Type := mk {
  thread_id : option string;
  user_message : option UserMessage.t;
  bot_message : option (list Segment.t);
  nlu : option Nlu.t;
  context : option (gmap string string);
  intent : option (gmap string string);
  parameters : option (list ParameterEntry.t);
  extracted_parameters : option (gmap string string);
  missing_parameters : option (list string);
  complete : option bool;
  current_node : option (option string);
  date : option string;
}.
End Document.

Section Persistence.
(** [datetime.isoformat] and [datetime.fromisoformat], and the best-effort
    construction of a [UserMessage] from its dictionary; [from_dict] catches
    what the last two raise. *)
Variable isoformat : Z -> string.
Variable fromisoformat : string -> result Z.
Variable rehydrate : UserMessage.t -> result UserMessage.t.

(** [State.to_dict]; the dictionary of a user message is the message. *)
Definition to_dict (self : State.t) : Document.t :=
  {| Document.thread_id := Some (State.thread_id self);
     Document.user_message := State.user_message self;
     Document.bot_message := State.bot_message self;
     Document.nlu := Some (State.nlu self);
     Document.context := Some (State.context self);
     Document.intent := State.intent self;
     Document.parameters := Some (State.parameters self);
     Document.extracted_parameters := Some (State.extracted_parameters self);
     Document.missing_parameters := Some (State.missing_parameters self);
     Document.complete := Some (State.complete self);
     Document.current_node := Some (State.current_node self);
     Document.date := Some (isoformat (State.date self)) |}.

(** [State.from_dict]; [now] is the clock read by the constructor. *)
Definition from_dict (now : Z) (state_dict : Document.t) : result State.t :=
  let user_message_obj :=
    match Document.user_message state_dict with
    | Some d =>
        match rehydrate d with
        | Ok um => Some um
        | Raise _ => None
        end
    | None => None
    end in
  let date_val :=
    match Document.date state_dict with
    | Some d =>
        match fromisoformat d with
        | Ok t => Some t
        | Raise _ => None
        end
    | None => None
    end in
  match Document.thread_id state_dict with
  | None => Raise KeyError
  | Some thread_id =>
      Ok (State.__init__ now thread_id
            user_message_obj
            (Document.bot_message state_dict)
            (Document.context state_dict)
            (Document.intent state_dict)
            (Document.parameters state_dict)
            (Document.extracted_parameters state_dict)
            (Document.missing_parameters state_dict)
            (default false (Document.complete state_dict))
            (default (Some EmptyString) (Document.current_node state_dict))
            date_val)
  end.

(** The collection, in insertion (natural) order. *)
Definition collection : Type := list Document.t.

Definition insert_one (d : Document.t) (c : collection) : collection :=
  c ++ [d].

(** The projection of [get]:
    [{"_id": 0, "nlu": 0, "date": 0, "user_message": 0, "bot_message": 0}]. *)
Definition project (d : Document.t) : Document.t :=
  {| Document.thread_id := Document.thread_id d;
     Document.user_message := None;
     Document.bot_message := None;
     Document.nlu := None;
     Document.context := Document.context d;
     Document.intent := Document.intent d;
     Document.parameters := Document.parameters d;
     Document.extracted_parameters := Document.extracted_parameters d;
     Document.missing_parameters := Document.missing_parameters d;
     Document.complete := Document.complete d;
     Document.current_node := Document.current_node d;
     Document.date := None |}.

(** [find_one({"thread_id": thread_id}, projection, sort=[("$natural", -1)])]:
    the last inserted document of the thread, projected. *)
Definition find_one (thread_id : string) (c : collection)
  : option Document.t :=
  project <$>
    List.find (fun d => bool_decide (Document.thread_id d = Some thread_id))
      (rev c).

(** [MemorySaverMongo.save]: the [thread_id] argument is not used. *)
Definition save (thread_id : string) (state : State.t) (c : collection)
  : collection :=
  insert_one (to_dict state) c.

(** The collection after a sequence of calls of [save]. *)
Definition saves (calls : list (string * State.t)) (c : collection)
  : collection :=
  foldl (fun c call => save call.1 call.2 c) c calls.

(** [MemorySaverMongo.get] *)
Definition get (now : Z) (thread_id : string) (c : collection)
  : result (option State.t) :=
  match find_one thread_id c with
  | Some result => state ← from_dict now result; Ok (Some state)
  | None => Ok None
  end.
End Persistence.

(** ** Properties claimed of the results *)

(** The slots (name, required) of which a state reports the missing ones:
    either those of the parameters of an intent, or those of the entries
    kept in the state. *)
Definition slots_of_intent (i : IntentModel.t) : list (string * bool) :=
  map (fun p => (ParameterModel.name p, ParameterModel.required p))
    (IntentModel.parameters i).

Definition slots_of_state (s : State.t) : list (string * bool) :=
  map (fun e => (ParameterEntry.name e, ParameterEntry.required e))
    (State.parameters s).

(** [set(missing_parameters) == {name for (name, required) in slots
                                 if required and name not in extracted_parameters}] *)
Definition missing_invariant (slots : list (string * bool)) (s : State.t)
  : Prop :=
  forall n : string,
    n ∈ State.missing_parameters s <->
    (n, true) ∈ slots /\ State.extracted_parameters s !! n = None.

(** [complete == (len(missing_parameters) == 0)] *)
Definition complete_invariant (s : State.t) : Prop :=
  State.complete s = true <-> State.missing_parameters s = [].

(** The parameter takes the branch of the raw text: it is a free-text slot
    and the one being prompted. *)
Definition takes_text (current_node : option string)
    (param : ParameterModel.t) : bool :=
  bool_decide (ParameterModel.type param = "free_text")
  && bool_decide (current_node = Some (ParameterModel.name param)).

(** The number of parameters of [before] that pop an entity of the type
    [type]. *)
Definition consumers_before (current_node : option string)
    (before : list ParameterModel.t) (type : string) : nat :=
  length
    (List.filter
       (fun q => bool_decide (ParameterModel.type q = type)
                 && negb (takes_text current_node q))
       before).

(** The entities the slot-filling loop works on:
    [current_state.nlu.get("entities", {})]. *)
Definition entities_of (s : State.t) : gmap string string :=
  default ∅ (Nlu.get (Nlu.entities (State.nlu s))).

(** ** Example conversations *)

Module Examples.
Definition origin : ParameterModel.t :=
  ParameterModel.mk "origin" "city" true "Where do you fly from?".
Definition destination : ParameterModel.t :=
  ParameterModel.mk "destination" "city" true
    "Where do you fly to?###Any city will do.".
Definition travel_date : ParameterModel.t :=
  ParameterModel.mk "travel_date" "date" true "When do you fly?".
Definition remark : ParameterModel.t :=
  ParameterModel.mk "remark" "free_text" true "Anything to add?".

Definition book_flight : IntentModel.t :=
  IntentModel.mk "Book a flight" "book_flight" false None
    "Booked###Have a nice trip" [origin; destination; remark].
(** the same intent after an edit of the catalog *)
Definition book_flight_one_way : IntentModel.t :=
  IntentModel.mk "Book a flight" "book_flight" false None
    "Booked###Have a nice trip" [origin].
Definition book_flight_edited : IntentModel.t :=
  IntentModel.mk "Book a flight" "book_flight" false None
    "Booked###Have a nice trip" [destination; origin; travel_date].
(** an intent with two parameters of the name [remark] *)
Definition remark_city : ParameterModel.t :=
  ParameterModel.mk "remark" "city" true "Which city?".
Definition book_flight_twice : IntentModel.t :=
  IntentModel.mk "Book a flight" "book_flight" false None
    "Booked###Have a nice trip" [remark; remark_city].
Definition greet : IntentModel.t :=
  IntentModel.mk "Greeting" "greet" false None "Hello" [].
Definition cancel : IntentModel.t :=
  IntentModel.mk "Cancel" "cancel" false None "Cancelled" [].
Definition balance_api : ApiDetails.t :=
  ApiDetails.mk "https://bank.example/balance" "GET" [] false EmptyString.
Definition check_balance : IntentModel.t :=
  IntentModel.mk "Balance" "check_balance" true (Some balance_api)
    "Your balance is {{ result.balance }}" [].

Definition manager : DialogueManager.t :=
  DialogueManager.mk
    {["book_flight" := book_flight; "greet" := greet; "cancel" := cancel]}
    "fallback" 0.5%float.

Definition unsure : Nlu.t :=
  Nlu.mk (Some (Some ∅))
    (Some (Some (Predicted.mk "book_flight" 0.25%float))).

Definition boston : Nlu.t :=
  Nlu.mk (Some (Some {["city" := "Boston"]})) (Some None).

Definition from_boston : UserMessage.t :=
  UserMessage.mk "t1" "I want to fly from Boston" (Some {["lang" := "en"]}).
Definition slash_book : UserMessage.t :=
  UserMessage.mk "t1" "/book_flight" None.
Definition window_seat : UserMessage.t :=
  UserMessage.mk "t1" "a window seat, please" None.
Definition stop_it : UserMessage.t :=
  UserMessage.mk "t1" "stop it" None.
Definition to_denver : UserMessage.t :=
  UserMessage.mk "t1" "to Denver" None.

Definition denver : Nlu.t :=
  Nlu.mk (Some (Some {["city" := "Denver"]})) (Some None).

(** the state of a fresh thread *)
Definition fresh : State.t :=
  State.__init__ 0 "t1" None None None None None None None false
    (Some EmptyString) None.

(** the state of another fresh thread *)
Definition fresh_t2 : State.t :=
  State.__init__ 0 "t2" None None None None None None None false
    (Some EmptyString) None.

(** first turn of a booking: the message is in, the NLU found a city *)
Definition turn1 : State.t :=
  State.set_nlu boston (State.update 1 from_boston fresh).

(** a state in the middle of a booking, as left by the first turn *)
Definition filling : State.t :=
  State.mk "t1" (Some from_boston)
    (Some [Segment.mk "Where do you fly to?"; Segment.mk "Any city will do."])
    boston {["lang" := "en"]} (Some {["id" := "book_flight"]})
    [entry_of origin; entry_of destination; entry_of remark]
    {["origin" := "Boston"]} ["destination"; "remark"] false
    (Some "destination") 1.

(** second turn of the booking: the answer names another city *)
Definition turn2 : State.t :=
  State.set_nlu denver (State.update 2 to_denver filling).

(** a later turn of the booking: the remark is being prompted and the
    NLU sees a city in the answer *)
Definition remarking : State.t :=
  State.mk "t1" (Some window_seat) None boston
    {["lang" := "en"]} (Some {["id" := "book_flight"]})
    [entry_of origin; entry_of destination; entry_of remark]
    {["origin" := "Boston"; "destination" := "Denver"]} ["remark"] false
    (Some "remark") 3.

(** the state of a finished booking *)
Definition finished : State.t :=
  State.mk "t1" (Some from_boston) (Some [Segment.mk "Booked"])
    boston {["lang" := "en"]} (Some {["id" := "book_flight"]})
    [entry_of origin; entry_of destination; entry_of remark]
    {["origin" := "Boston"; "destination" := "Denver";
      "remark" := "a window seat, please"]} [] true None 1.

(** a state that lists a missing slot, met by an intent without
    parameters *)
Definition stale : State.t :=
  State.mk "t1" (Some from_boston) None Nlu.empty ∅ (Some ∅) [] ∅
    ["destination"] false None 1.

(** a state whose entries were taken from [book_flight_one_way] *)
Definition one_way_turn : State.t :=
  State.mk "t1" (Some from_boston) (Some [Segment.mk "old reply"]) boston ∅
    (Some {["id" := "book_flight"]}) [entry_of origin] ∅ [] false None 1.

(** Collaborators for the examples: a renderer that returns the template
    as it is, a JSON parser that returns the text, an API that is down and
    one that answers. *)
Definition plain_render (template : string) (_ _ : gmap string string)
    (_ : option string) : result string :=
  Ok template.
Definition text_loads (text : string) : result string := Ok text.
Definition api_down (_ _ : string) (_ : list (string * string))
    (_ : api_parameters string) (_ : bool) : result string :=
  Raise (APICallExcetion "Request timed out after 30 seconds").
Definition api_up (_ _ : string) (_ : list (string * string))
    (_ : api_parameters string) (_ : bool) : result string :=
  Ok "42".

(** A clock text for the examples: only the epoch has a text that parses
    back. *)
Definition epoch_text : string := "1970-01-01T00:00:00+00:00".
Definition isoformat (t : Z) : string :=
  if bool_decide (t = 0%Z) then epoch_text else "later".
Definition fromisoformat (text : string) : result Z :=
  if bool_decide (text = epoch_text) then Ok 0%Z
  else Raise (ValueError "Invalid isoformat string").
Definition rehydrate (d : UserMessage.t) : result UserMessage.t := Ok d.

(** the state of a thread right after [update] on a finished turn *)
Definition restarted : State.t :=
  State.update 2 stop_it finished.
End Examples.

(** * The callers and the callees of the slot filling *)

(** ** The catalog of intents *)

(** [State.get_active_intent_id]: a non-empty [intent] dictionary gives
    [intent.get("id")]. *)
Definition get_active_intent_id (self : State.t) : option string :=
  match State.intent self with
  | Some d => if decide (d = ∅) then None else d !! "id"
  | None => None
  end.

(** [DialogueManager.__init__], for the catalog:
    [{intent.intent_id: intent for intent in intents}], where a later intent
    of the list replaces an earlier one of the same id. *)
Definition DialogueManager__init__ (intents : list IntentModel.t)
    (fallback_intent_id : string) (intent_confidence_threshold : float)
  : DialogueManager.t :=
  {| DialogueManager.intents :=
       foldl (fun catalog intent =>
                <[IntentModel.intent_id intent := intent]> catalog)
         ∅ intents;
     DialogueManager.fallback_intent_id := fallback_intent_id;
     DialogueManager.confidence_threshold := intent_confidence_threshold |}.

(** [_get_intent]: [self.intents.get(intent_id)] *)
Definition _get_intent (self : DialogueManager.t) (intent_id : string)
  : option IntentModel.t :=
  DialogueManager.intents self !! intent_id.

(** [_get_fallback_intent]: [self.intents[self.fallback_intent_id]] *)
Definition _get_fallback_intent (self : DialogueManager.t)
  : result IntentModel.t :=
  match DialogueManager.intents self
        !! DialogueManager.fallback_intent_id self with
  | Some intent => Ok intent
  | None => Raise KeyError
  end.

(** ** [DialogueManager.process] *)

Definition pipeline_not_ready : string :=
  "NLU pipeline is not initialized. Please build the models.".

(** The dictionary [process] stores in [current_state.nlu]. *)
Definition nlu_of_result (nlu_result : Nlu.t) : Nlu.t :=
  {| Nlu.entities := Some (Nlu.get (Nlu.entities nlu_result));
     Nlu.intent := Some (Nlu.get (Nlu.intent nlu_result)) |}.

(** A string that counts as true: not [None] and not empty. *)
Definition truthy (x : option string) : bool :=
  match x with
  | Some EmptyString | None => false
  | Some _ => true
  end.

Section Process.
(** The collaborators of [process]: those of the response phase, the memory
    saver (any [MemorySaver]: [get] reads the store, [init_state] and [save]
    may write it), the NLU pipeline ([None] before the models are built) and
    the clock read by [State.update]. *)
Variable Json : Type.
Variable render :
  string -> gmap string string -> gmap string string -> option Json ->
  result string.
Variable json_loads : string -> result Json.
Variable call_api :
  string -> string -> list (string * string) -> api_parameters Json -> bool ->
  result Json.
Variable Store : Type.
Variable memory_saver_get : string -> Store -> result (option State.t).
Variable memory_saver_init_state : string -> Store -> result (State.t * Store).
Variable memory_saver_save : string -> State.t -> Store -> result Store.
Variable nlu_pipeline : option (string -> result Nlu.t).
Variable now : Z.

(** [process].  The [try] block re-raises what it catches.  When the active
    intent of the state is not in the catalog, [_get_intent] gives [None]:
    [_process_intent] then takes the query intent on a cancellation (it never
    reads the active intent there) and fails on [active_intent.parameters]
    otherwise. *)
Definition process (self : DialogueManager.t) (message : UserMessage.t)
    (store : Store) : result (State.t * Store) :=
  match nlu_pipeline with
  | None => Raise (DialogueManagerException pipeline_not_ready)
  | Some pipeline =>
      found ← memory_saver_get (UserMessage.thread_id message) store;
      '(current_state, store) ←
        match found with
        | Some current_state => Ok (current_state, store)
        | None =>
            memory_saver_init_state (UserMessage.thread_id message) store
        end;
      let current_state := State.update now message current_state in
      text ←
        match State.user_message current_state with
        | Some um => Ok (UserMessage.text um)
        | None => Raise AttributeError
        end;
      nlu_result ← pipeline text;
      '(query_intent_id, _) ←
        _get_intent_id_and_confidence self current_state nlu_result;
      query_intent ←
        match _get_intent self query_intent_id with
        | Some intent => Ok intent
        | None => _get_fallback_intent self
        end;
      let current_state :=
        State.set_nlu (nlu_of_result nlu_result) current_state in
      let active_intent_id := get_active_intent_id current_state in
      let active_intent :=
        if truthy active_intent_id
           && negb (bool_decide (Some query_intent_id = active_intent_id))
        then active_intent_id ≫= _get_intent self
        else Some query_intent in
      '(current_state, active_intent) ←
        match active_intent with
        | Some active_intent =>
            _process_intent query_intent active_intent current_state
        | None =>
            if bool_decide (IntentModel.intent_id query_intent = "cancel")
            then _process_intent query_intent query_intent current_state
            else Raise AttributeError
        end;
      let current_state :=
        State.set_intent
          (Some {["id" := IntentModel.intent_id active_intent]})
          current_state in
      current_state ←
        (if State.complete current_state
         then _handle_api_trigger Json render json_loads call_api
                active_intent current_state
         else Ok current_state);
      store ←
        memory_saver_save (UserMessage.thread_id message) current_state store;
      Ok (current_state, store)
  end.
End Process.

(** ** [call_api] ([app/bot/dialogue_manager/http_client.py]) *)

(** [str.upper] and [str.lower] as they are on ASCII text: only the
    letters [a-z] (resp. [A-Z]) change.  On other text Python's functions
    follow the Unicode case mappings, which these do not model: the
    theorems on [call_api] are stated for ASCII request methods. *)
Definition upper_ascii (c : ascii) : ascii :=
  let n := nat_of_ascii c in
  if (97 <=? n)%nat && (n <=? 122)%nat then ascii_of_nat (n - 32) else c.

Definition lower_ascii (c : ascii) : ascii :=
  let n := nat_of_ascii c in
  if (65 <=? n)%nat && (n <=? 90)%nat then ascii_of_nat (n + 32) else c.

Fixpoint upper (s : string) : string :=
  match s with
  | EmptyString => EmptyString
  | String c s' => String (upper_ascii c) (upper s')
  end.

(** [str.isascii] *)
Definition isascii (s : string) : bool :=
  forallb (fun c => (nat_of_ascii c <? 128)%nat)
    (String.list_ascii_of_string s).

Fixpoint lower (s : string) : string :=
  match s with
  | EmptyString => EmptyString
  | String c s' => String (lower_ascii c) (lower s')
  end.

(** What the HTTP session can raise: [aiohttp.ClientError] (with its text),
    [asyncio.TimeoutError], or anything else. *)
Inductive transport_error : Type :=
| ClientError (msg : string)
| TimeoutError
| Unexpected (e : exn).

Section CallApi.
Variable Json : Type.

(** A response of the session: what [await response.json()] gives, and the
    text of the [ClientResponseError] that [response.raise_for_status()]
    raises for an error status. *)
Record response : Type := {
  response_json : Json + transport_error;
  raise_for_status : option string;
}.

(** The payload of a request: [params=parameters] or [json=parameters]. *)
Inductive request_payload : Type :=
| Params (parameters : api_parameters Json)
| JsonData (parameters : api_parameters Json).

(** The session ([session.get], [session.post], ...: the first argument is
    the name of the method called), the default timeout of the environment,
    and [body or {}] on a parsed JSON body. *)
Variable session_request :
  string -> string -> list (string * string) -> request_payload -> Z ->
  response + transport_error.
Variable DEFAULT_TIMEOUT : Z.
Variable json_or_empty : Json -> Json.

(** [parameters or {}] *)
Definition parameters_or_empty (parameters : api_parameters Json)
  : api_parameters Json :=
  match parameters with
  | JsonBody body => JsonBody (json_or_empty body)
  | ExtractedParameters parameters => ExtractedParameters parameters
  end.

(** One request: the call of the session, the JSON of the answer, then
    [raise_for_status]. *)
Definition send (verb url : string) (headers : list (string * string))
    (payload : request_payload) (timeout : Z) : Json + transport_error :=
  match session_request verb url headers payload timeout with
  | inr e => inr e
  | inl response =>
      match response_json response with
      | inr e => inr e
      | inl result =>
          match raise_for_status response with
          | Some msg => inr (ClientError msg)
          | None => inl result
          end
      end
  end.

(** [call_api] *)
Definition http_call_api (url method : string)
    (headers : list (string * string)) (parameters : api_parameters Json)
    (is_json : bool) (timeout : option Z) : result Json :=
  let parameters := parameters_or_empty parameters in
  let timeout := default DEFAULT_TIMEOUT timeout in
  let method_up := upper method in
  let attempt :=
    if bool_decide (method_up = "GET") then
      send "get" url headers (Params parameters) timeout
    else if bool_decide (method_up ∈ ["POST"; "PUT"]) then
      send (lower method_up) url headers
        (if is_json then JsonData parameters else Params parameters) timeout
    else if bool_decide (method_up = "DELETE") then
      send "delete" url headers (Params parameters) timeout
    else
      inr (Unexpected
             (ValueError ("Unsupported request method: " +:+ method_up))) in
  match attempt with
  | inl result => Ok result
  | inr (ClientError msg) =>
      Raise (APICallExcetion ("HTTP error occurred: " +:+ msg))
  | inr TimeoutError =>
      Raise (APICallExcetion
               ("Request timed out after " +:+ pretty.pretty timeout
                +:+ " seconds"))
  | inr (Unexpected e) => Raise e
  end.

(** A request that failed in the way [call_api] reports as its
    [APICallExcetion]: an [aiohttp.ClientError] (an error status is one) or
    a timeout. *)
Definition failed (attempt : Json + transport_error) : Prop :=
  match attempt with
  | inr (ClientError _) | inr TimeoutError => True
  | inr (Unexpected _) | inl _ => False
  end.

(** [call_api] as [_call_intent_api] calls it: without a timeout. *)
Definition call_api_of_intent (url method : string)
    (headers : list (string * string)) (parameters : api_parameters Json)
    (is_json : bool) : result Json :=
  http_call_api url method headers parameters is_json None.
End CallApi.

Arguments response_json {Json} r.
Arguments raise_for_status {Json} r.
Arguments Params {Json} parameters.
Arguments JsonData {Json} parameters.

(** ** [MemorySaverMongo.get_all] *)

Section History.
Variable fromisoformat : string -> result Z.
Variable rehydrate : UserMessage.t -> result UserMessage.t.

(** [find({"thread_id": thread_id}, sort=[("$natural", -1)])]: the documents
    of the thread, the last inserted first, whole. *)
Definition find_all (thread_id : string) (c : collection)
  : list Document.t :=
  List.filter (fun d => bool_decide (Document.thread_id d = Some thread_id))
    (rev c).

(** [get_all]: [from_dict] on every document, in order. *)
Definition get_all (now : Z) (thread_id : string) (c : collection)
  : result (list State.t) :=
  mapM (from_dict fromisoformat rehydrate now) (find_all thread_id c).
End History.

(** ** [MemorySaverMongo] as the memory saver of [process] *)

(** [save] as a call that returns: the collection is the store. *)
Definition memory_saver_mongo_save (isoformat : Z -> string)
    (thread_id : string) (state : State.t) (c : collection)
  : result collection :=
  Ok (save isoformat thread_id state c).

(** ** More example conversations *)

Module Scenarios.
(** a state of the thread [t2] *)
Definition other_thread : State.t :=
  State.mk "t2" (Some Examples.from_boston) None Examples.boston ∅
    (Some {["id" := "greet"]}) [] ∅ [] true None 4.

(** a collection with one finished turn of [t1] *)
Definition one_turn : collection :=
  save Examples.isoformat "t1" Examples.finished [].

(** A memory saver that keeps the states in a list, the last saved first,
    and starts a thread with the state of the constructor. *)
Definition memory_get (thread_id : string) (store : list State.t)
  : result (option State.t) :=
  Ok (List.find (fun s => bool_decide (State.thread_id s = thread_id)) store).
Definition memory_init_state (thread_id : string) (store : list State.t)
  : result (State.t * list State.t) :=
  Ok (State.__init__ 0 thread_id None None None None None None None false
        (Some EmptyString) None,
      store).
Definition memory_save (thread_id : string) (state : State.t)
    (store : list State.t) : result (list State.t) :=
  Ok (state :: store).

(** [init_state] for a saver on a collection: the state of the
    constructor, nothing written. *)
Definition collection_init_state (thread_id : string) (c : collection)
  : result (State.t * collection) :=
  Ok (State.__init__ 0 thread_id None None None None None None None false
        (Some EmptyString) None,
      c).

(** An NLU pipeline that finds the city of Boston and the intent
    [book_flight] in every text. *)
Definition sure : Nlu.t :=
  Nlu.mk (Some (Some {["city" := "Boston"]}))
    (Some (Some (Predicted.mk "book_flight" 0.75%float))).
Definition pipeline (text : string) : result Nlu.t := Ok sure.

(** the manager of the examples, with its catalog built from a list *)
Definition manager : DialogueManager.t :=
  DialogueManager__init__
    [Examples.book_flight; Examples.greet; Examples.cancel;
     Examples.check_balance]
    "greet" 0.5%float.


(** An NLU pipeline that is unsure of every text. *)
Definition doubtful (text : string) : result Nlu.t := Ok Examples.unsure.

(** HTTP sessions: one whose server answers every request with a JSON body
    and a good status, one whose server answers with the status 500 and a
    JSON body, and one that is never answered in time. *)
Definition answering (verb url : string) (headers : list (string * string))
    (payload : request_payload string) (timeout : Z)
  : response string + transport_error :=
  inl {| response_json := inl "42"; raise_for_status := None |}.
Definition refusing (verb url : string) (headers : list (string * string))
    (payload : request_payload string) (timeout : Z)
  : response string + transport_error :=
  inl {| response_json := inl "oops";
         raise_for_status := Some "500, message='Internal Server Error'" |}.
Definition silent (verb url : string) (headers : list (string * string))
    (payload : request_payload string) (timeout : Z)
  : response string + transport_error :=
  inr TimeoutError.
Definition keep (body : string) : string := body.

(** an intent whose API details name a request method [call_api] does not
    know *)
Definition patch_api : ApiDetails.t :=
  ApiDetails.mk "https://bank.example/balance" "patch" [] false EmptyString.
Definition patch_balance : IntentModel.t :=
  IntentModel.mk "Balance" "patch_balance" true (Some patch_api)
    "Your balance is {{ result.balance }}" [].
End Scenarios.

(** * Proofs *)

(** Case analysis on whether the parameter has the type [t]. *)
Ltac same_type p t :=
  destruct (decide (ParameterModel.type p = t)) as [<-|?];
  [rewrite bool_decide_eq_true_2 by done
  |rewrite bool_decide_eq_false_2 by done];
  simpl.

(** ** The model on concrete turns *)

Example split_sentence_bubbles :
  split_sentence "Hi###How can I help?" = ["Hi"; "How can I help?"]
  /\ split_sentence "no delimiter" = ["no delimiter"]
  /\ split_sentence "a######b###" = ["a"; ""; "b"; ""]
  /\ split "/" "/book_flight/now" = [""; "book_flight"; "now"].
Proof. repeat split. Qed.

(** First turn of a booking: the city fills [origin], the first parameter of
    its type; [destination] is prompted. *)
Example first_turn_fills_origin :
  exists s' : State.t,
    _process_intent Examples.book_flight Examples.book_flight Examples.turn1
    = Ok (s', Examples.book_flight)
    /\ State.extracted_parameters s' = {["origin" := "Boston"]}
    /\ State.missing_parameters s' = ["destination"; "remark"]
    /\ State.current_node s' = Some "destination"
    /\ State.complete s' = false.
Proof. eexists. split; [reflexivity|]. repeat split. Qed.

(** Second turn: the new city goes to [origin] again, the first parameter
    of its type, and [destination] is still missing. *)
Example second_city_overwrites_origin :
  exists s' : State.t,
    _process_intent Examples.book_flight Examples.book_flight Examples.turn2
    = Ok (s', Examples.book_flight)
    /\ State.extracted_parameters s' = {["origin" := "Denver"]}
    /\ State.missing_parameters s' = ["destination"; "remark"]
    /\ State.current_node s' = Some "destination"
    /\ State.complete s' = false.
Proof. eexists. split; [reflexivity|]. repeat split. Qed.

(** An API that answers: the reply is the rendered response. *)
Example api_answer_rendered :
  _handle_api_trigger string Examples.plain_render Examples.text_loads
    Examples.api_up Examples.check_balance Examples.finished
  = Ok (State.set_bot_message
          (Some [Segment.mk "Your balance is {{ result.balance }}"])
          Examples.finished).
Proof. reflexivity. Qed.

(** ** [State.update] *)

(** C2. Reset on completion: for a state with [complete = true],
    [update] sets [bot_message] to the empty list, [intent] to [None],
    [parameters], [extracted_parameters] and [missing_parameters] to the
    empty values, [current_node] to [None] and [complete] to [false]; the
    thread id is unchanged, and the context is the old context merged with
    the context of the message: a key of the message takes the value of the
    message, every other key keeps its old value, so no key is removed. *)
Theorem update_resets_completed_state :
  forall (now : Z) (message : UserMessage.t) (s : State.t),
    State.complete s = true ->
    let s' := State.update now message s in
    State.bot_message s' = Some []
    /\ State.intent s' = None
    /\ State.parameters s' = []
    /\ State.extracted_parameters s' = ∅
    /\ State.missing_parameters s' = []
    /\ State.current_node s' = None
    /\ State.complete s' = false
    /\ State.thread_id s' = State.thread_id s
    /\ (forall k : string,
          State.context s' !! k =
          match UserMessage.context message ≫= (.!! k) with
          | Some v => Some v
          | None => State.context s !! k
          end)
    /\ dom (State.context s) ⊆ dom (State.context s').
Proof.
  intros now message s Hc s'. subst s'. unfold State.update.
  assert (Hctx : forall k : string,
    (match UserMessage.context message with
     | Some c => c ∪ State.context s
     | None => State.context s
     end) !! k =
    match UserMessage.context message ≫= (.!! k) with
    | Some v => Some v
    | None => State.context s !! k
    end).
  { intros k. destruct (UserMessage.context message) as [c|]; simpl; [|done].
    rewrite lookup_union. destruct (c !! k), (State.context s !! k); done. }
  assert (Hdom : forall c' : gmap string string,
            (forall k, c' !! k = match UserMessage.context message ≫= (.!! k) with
                                 | Some v => Some v
                                 | None => State.context s !! k
                                 end) ->
            dom (State.context s) ⊆ dom c').
  { intros c' Hc' k [v Hv]%elem_of_dom. apply elem_of_dom. rewrite Hc', Hv.
    destruct (UserMessage.context message ≫= (.!! k)); eauto. }
  destruct (UserMessage.context message) as [c|] eqn:Hm; simpl in *;
    rewrite Hc; simpl; repeat split; try done; auto.
Qed.

Lemma update_resets_completed_state_witness :
  State.complete Examples.finished = true
  /\ State.intent (State.update 2 Examples.from_boston Examples.finished) = None
  /\ State.context (State.update 2 Examples.from_boston Examples.finished) !! "lang"
     = Some "en".
Proof.
  split; [reflexivity|].
  pose proof (update_resets_completed_state 2 Examples.from_boston
                Examples.finished eq_refl) as H.
  split; [apply H|].
  destruct H as (_ & _ & _ & _ & _ & _ & _ & _ & H & _).
  rewrite H. reflexivity.
Defined.

(** ** Intent resolution *)

Lemma prefix_slash (c : ascii) (s : string) :
  String.prefix "/" (String c s) = bool_decide (c = "/"%char).
Proof.
  change (String.prefix "/" (String c s))
    with (if ascii_dec "/" c then String.prefix EmptyString s else false).
  destruct (ascii_dec "/" c) as [<-|Hne].
  - destruct s; symmetry; by apply bool_decide_eq_true_2.
  - symmetry. apply bool_decide_eq_false_2. congruence.
Qed.

Lemma app_string_cons (x : ascii) (a b : string) :
  String x a +:+ b = String x (a +:+ b).
Proof. reflexivity. Qed.

Lemma app_string_assoc (a b c : string) : (a +:+ b) +:+ c = a +:+ (b +:+ c).
Proof.
  induction a as [|x a IH]; [done|].
  rewrite !app_string_cons. f_equal. exact IH.
Qed.

Lemma app_string_empty (a : string) : a +:+ EmptyString = a.
Proof.
  induction a as [|x a IH]; [done|].
  rewrite app_string_cons. f_equal. exact IH.
Qed.

(** Splitting on ["/"]: a piece runs up to the next ["/"] or to the end. *)
Lemma split_go_slash_free (a cur : string) :
  "/"%char ∉ String.list_ascii_of_string a ->
  split_go "/" 0 cur a = [cur +:+ a]
  /\ forall r : string,
       split_go "/" 0 cur (a +:+ String "/" r)
       = (cur +:+ a) :: split_go "/" 0 EmptyString r.
Proof.
  revert cur. induction a as [|c a IH]; intros cur Hfree.
  - split.
    + cbn [split_go]. by rewrite app_string_empty.
    + intros r. change (EmptyString +:+ String "/" r) with (String "/" r).
      cbn [split_go]. rewrite prefix_slash, bool_decide_eq_true_2 by done.
      cbn [String.length Nat.sub]. by rewrite app_string_empty.
  - simpl in Hfree.
    apply not_elem_of_cons in Hfree as [Hc Hfree].
    destruct (IH (cur +:+ String c EmptyString) Hfree) as [IH1 IH2].
    split.
    + cbn [split_go]. rewrite prefix_slash, bool_decide_eq_false_2 by done.
      rewrite IH1, app_string_assoc. done.
    + intros r. rewrite app_string_cons.
      cbn [split_go]. rewrite prefix_slash, bool_decide_eq_false_2 by done.
      rewrite IH2, app_string_assoc. done.
Qed.

(** Every text is a piece without ["/"] followed by nothing or by a ["/"]
    and more text. *)
Lemma first_piece (t : string) :
  exists a rest : string,
    t = a +:+ rest
    /\ ("/"%char ∉ String.list_ascii_of_string a)
    /\ (rest = EmptyString \/ exists r : string, rest = String "/" r).
Proof.
  induction t as [|c t (a & rest & -> & Hfree & Hrest)].
  - exists EmptyString, EmptyString. split; [done|].
    split; [apply not_elem_of_nil|by left].
  - destruct (decide (c = "/"%char)) as [->|Hc].
    + exists EmptyString, (String "/" (a +:+ rest)). split; [done|].
      split; [apply not_elem_of_nil|right; by eexists].
    + exists (String c a), rest. split; [done|]. split; [|done].
      simpl. by apply not_elem_of_cons.
Qed.

(** C6. Slash command: when the text of the message starts with ["/"], the
    text is ["/"], then a piece [a] without ["/"], then either nothing or a
    second ["/"] and more text, and the call returns [a] as the intent id
    with the confidence [1.0], whatever the NLU result is (it may even lack a
    predicted intent); for the text ["/book_flight"] it returns
    ["book_flight"] and [1.0]. *)
Theorem slash_command_override :
  forall (self : DialogueManager.t) (s : State.t) (um : UserMessage.t)
         (nlu_result : Nlu.t),
    State.user_message s = Some um ->
    startswith "/" (UserMessage.text um) = true ->
    (exists a rest : string,
       UserMessage.text um = "/" +:+ a +:+ rest
       /\ ("/"%char ∉ String.list_ascii_of_string a)
       /\ (rest = EmptyString \/ exists r : string, rest = String "/" r)
       /\ _get_intent_id_and_confidence self s nlu_result
          = Ok (a, 1.0%float))
    /\ (UserMessage.text um = "/book_flight" ->
        _get_intent_id_and_confidence self s nlu_result
        = Ok ("book_flight", 1.0%float)).
Proof.
  intros self s um nlu_result Hum Hslash. split.
  - destruct (UserMessage.text um) as [|c t] eqn:Htext; [done|].
    unfold startswith in Hslash. rewrite prefix_slash in Hslash.
    apply bool_decide_eq_true_1 in Hslash as ->.
    destruct (first_piece t) as (a & rest & -> & Hfree & Hrest).
    exists a, rest. split; [done|]. split; [done|]. split; [done|].
    unfold _get_intent_id_and_confidence. rewrite Hum, Htext.
    unfold startswith. rewrite prefix_slash, bool_decide_eq_true_2 by done.
    unfold split. cbn [split_go].
    rewrite prefix_slash, bool_decide_eq_true_2 by done.
    cbn [String.length Nat.sub].
    destruct (split_go_slash_free a EmptyString Hfree) as [H1 H2].
    destruct Hrest as [->|[r ->]].
    + rewrite app_string_empty, H1. reflexivity.
    + rewrite H2. reflexivity.
  - intros Htext. unfold _get_intent_id_and_confidence.
    rewrite Hum, Htext. reflexivity.
Qed.

Lemma slash_command_override_witness :
  State.user_message (State.update 1 Examples.slash_book Examples.fresh)
  = Some Examples.slash_book
  /\ startswith "/" (UserMessage.text Examples.slash_book) = true
  /\ (forall (self : DialogueManager.t) (nlu_result : Nlu.t),
        _get_intent_id_and_confidence self
          (State.update 1 Examples.slash_book Examples.fresh) nlu_result
        = Ok ("book_flight", 1.0%float)).
Proof.
  split; [reflexivity|]. split; [reflexivity|]. intros self nlu_result.
  apply (slash_command_override self _ Examples.slash_book nlu_result);
    reflexivity.
Defined.

(** C7. Low-confidence fallback: when the text does not start with ["/"] and
    the NLU result holds a predicted intent, a confidence strictly below the
    threshold gives the fallback intent id with confidence [1.0], and any
    other confidence gives the predicted intent with its own confidence. *)
Theorem low_confidence_fallback :
  forall (self : DialogueManager.t) (s : State.t) (um : UserMessage.t)
         (nlu_result : Nlu.t) (predicted : Predicted.t),
    State.user_message s = Some um ->
    startswith "/" (UserMessage.text um) = false ->
    Nlu.intent nlu_result = Some (Some predicted) ->
    (PrimFloat.ltb (Predicted.confidence predicted)
       (DialogueManager.confidence_threshold self) = true ->
     _get_intent_id_and_confidence self s nlu_result
     = Ok (DialogueManager.fallback_intent_id self, 1.0%float))
    /\ (PrimFloat.ltb (Predicted.confidence predicted)
          (DialogueManager.confidence_threshold self) = false ->
        _get_intent_id_and_confidence self s nlu_result
        = Ok (Predicted.intent predicted, Predicted.confidence predicted)).
Proof.
  intros self s um nlu_result predicted Hum Hslash Hintent.
  unfold _get_intent_id_and_confidence. rewrite Hum, Hslash, Hintent.
  split; intros ->; reflexivity.
Qed.

Lemma low_confidence_fallback_witness :
  State.user_message (State.update 1 Examples.from_boston Examples.fresh)
  = Some Examples.from_boston
  /\ startswith "/" (UserMessage.text Examples.from_boston) = false
  /\ Nlu.intent Examples.unsure
     = Some (Some (Predicted.mk "book_flight" 0.25%float))
  /\ PrimFloat.ltb 0.25%float
       (DialogueManager.confidence_threshold Examples.manager) = true
  /\ _get_intent_id_and_confidence Examples.manager
       (State.update 1 Examples.from_boston Examples.fresh) Examples.unsure
     = Ok ("fallback", 1.0%float).
Proof.
  split; [reflexivity|]. split; [reflexivity|]. split; [reflexivity|].
  split; [reflexivity|].
  apply (low_confidence_fallback Examples.manager _ Examples.from_boston
           Examples.unsure (Predicted.mk "book_flight" 0.25%float));
    reflexivity.
Defined.

(** ** Slot filling *)

(** C8. Cancel: when the id of the query intent is ["cancel"], the call
    returns, whatever the state holds, a state with [complete = true], empty
    [parameters], [extracted_parameters] and [missing_parameters] and
    [current_node = None], together with the query intent as the active
    intent. *)
Theorem cancel_clears_slots :
  forall (query_intent active_intent : IntentModel.t) (s : State.t),
    IntentModel.intent_id query_intent = "cancel" ->
    exists s' : State.t,
      _process_intent query_intent active_intent s = Ok (s', query_intent)
      /\ State.complete s' = true
      /\ State.parameters s' = []
      /\ State.extracted_parameters s' = ∅
      /\ State.missing_parameters s' = []
      /\ State.current_node s' = None.
Proof.
  intros q a s Hq. unfold _process_intent.
  rewrite bool_decide_eq_true_2 by done.
  eexists. split; [reflexivity|]. repeat split.
Qed.

Lemma cancel_clears_slots_witness :
  IntentModel.intent_id Examples.cancel = "cancel"
  /\ exists s' : State.t,
       _process_intent Examples.cancel Examples.book_flight Examples.filling
       = Ok (s', Examples.cancel)
       /\ State.complete s' = true
       /\ State.parameters s' = []
       /\ State.extracted_parameters s' = ∅
       /\ State.missing_parameters s' = []
       /\ State.current_node s' = None.
Proof.
  split; [reflexivity|].
  apply (cancel_clears_slots Examples.cancel Examples.book_flight
           Examples.filling). reflexivity.
Defined.

(** *** The loops of [_process_intent] *)

Lemma set_parameters_eta (s : State.t) :
  State.set_parameters (State.parameters s) s = s.
Proof. by destruct s. Qed.

Lemma snapshot_parameters_eq (parameters : list ParameterModel.t) (s : State.t) :
  snapshot_parameters parameters s
  = State.set_parameters (State.parameters s ++ map entry_of parameters) s.
Proof.
  unfold snapshot_parameters. revert s.
  induction parameters as [|p ps IH]; intros s; simpl.
  - by rewrite app_nil_r, set_parameters_eta.
  - rewrite IH. simpl. by rewrite <- app_assoc.
Qed.

(** The grouping loop keeps, for every entity name, the list of the one
    value the dictionary holds for it. *)
Lemma group_entities_lookup (extracted_entities : gmap string string)
    (t : string) :
  group_entities extracted_entities !! t
  = (fun v => [v]) <$> extracted_entities !! t.
Proof.
  unfold group_entities.
  assert (Hgen : forall (l : list (string * string)) (acc : gmap string (list string)),
    NoDup l.*1 ->
    foldl (fun ebt '(n, v) => <[n := default [] (ebt !! n) ++ [v]]> ebt) acc l !! t
    = match list_to_map (M := gmap string string) l !! t with
      | Some v => Some (default [] (acc !! t) ++ [v])
      | None => acc !! t
      end).
  { induction l as [|[n v] l IH]; intros acc Hnd; simpl; [done|].
    apply NoDup_cons in Hnd as [Hn Hnd]. rewrite IH by done.
    destruct (decide (n = t)) as [->|Hne].
    - rewrite !lookup_insert_eq.
      rewrite (not_elem_of_list_to_map_1 (M := gmap string)) by done. done.
    - rewrite !lookup_insert_ne by done. done. }
  rewrite Hgen by apply NoDup_fst_map_to_list.
  rewrite list_to_map_to_list, lookup_empty.
  by destruct (extracted_entities !! t).
Qed.

(** The slot-filling loop reads the state only through [current_node],
    [user_message] and [extracted_parameters], and writes only
    [extracted_parameters]. *)
Lemma fill_parameter_set_parameters (p : ParameterModel.t) (s : State.t)
    (ebt : gmap string (list string)) (x : list ParameterEntry.t) :
  fill_parameter p (State.set_parameters x s, ebt)
  = '(s', ebt') ← fill_parameter p (s, ebt);
    Ok (State.set_parameters x s', ebt').
Proof.
  unfold fill_parameter. simpl.
  destruct (_ && _).
  - by destruct (State.user_message s).
  - by destruct (ebt !! ParameterModel.type p) as [[|v rest]|].
Qed.

Lemma fill_parameters_set_parameters (ps : list ParameterModel.t) (s : State.t)
    (ebt : gmap string (list string)) (x : list ParameterEntry.t) :
  fill_parameters ps (State.set_parameters x s, ebt)
  = '(s', ebt') ← fill_parameters ps (s, ebt);
    Ok (State.set_parameters x s', ebt').
Proof.
  revert s ebt. induction ps as [|p ps IH]; intros s ebt; [done|].
  cbn [fill_parameters]. rewrite fill_parameter_set_parameters.
  destruct (fill_parameter p (s, ebt)) as [[s1 ebt1]|e]; [|done].
  simpl. apply IH.
Qed.

Lemma fill_parameters_app (ps qs : list ParameterModel.t)
    (acc : State.t * gmap string (list string)) :
  fill_parameters (ps ++ qs) acc
  = acc' ← fill_parameters ps acc; fill_parameters qs acc'.
Proof.
  revert acc. induction ps as [|p ps IH]; intros acc; [done|].
  simpl. destruct (fill_parameter p acc) as [acc1|e]; [|done].
  simpl. apply IH.
Qed.

(** What one iteration does. *)
Lemma fill_parameter_spec (p : ParameterModel.t) (s : State.t)
    (ebt : gmap string (list string)) (um : UserMessage.t) :
  State.user_message s = Some um ->
  exists (ex' : gmap string string) (ebt' : gmap string (list string)),
    fill_parameter p (s, ebt) = Ok (State.set_extracted_parameters ex' s, ebt')
    /\ (forall n, n ≠ ParameterModel.name p ->
                  ex' !! n = State.extracted_parameters s !! n)
    /\ (forall t, ebt' !! t =
                  drop (consumers_before (State.current_node s) [p] t)
                    <$> ebt !! t)
    /\ ex' !! ParameterModel.name p =
       if takes_text (State.current_node s) p then Some (UserMessage.text um)
       else match default [] (ebt !! ParameterModel.type p) !! 0%nat with
            | Some v => Some v
            | None => State.extracted_parameters s !! ParameterModel.name p
            end.
Proof.
  intros Hum. unfold fill_parameter, consumers_before, takes_text.
  cbn [List.filter].
  destruct (bool_decide (ParameterModel.type p = "free_text")
            && bool_decide (State.current_node s = Some (ParameterModel.name p)))
    eqn:Htext.
  - rewrite Hum. eexists _, _. split; [reflexivity|].
    split; [|split].
    + intros n Hn. by rewrite lookup_insert_ne.
    + intros t. rewrite andb_false_r. simpl. by destruct (ebt !! t).
    + by rewrite lookup_insert_eq.
  - destruct (ebt !! ParameterModel.type p) as [[|v rest]|] eqn:Hebt.
    + exists (State.extracted_parameters s), ebt. split; [by destruct s|].
      split; [done|]. split; [|done].
      intros t. rewrite andb_true_r. same_type p t.
      * by rewrite Hebt.
      * by destruct (ebt !! t).
    + eexists _, _. split; [reflexivity|]. split; [|split].
      * intros n Hn. by rewrite lookup_insert_ne.
      * intros t. rewrite andb_true_r. same_type p t.
        -- by rewrite lookup_insert_eq, Hebt.
        -- rewrite lookup_insert_ne by done. by destruct (ebt !! t).
      * by rewrite lookup_insert_eq.
    + exists (State.extracted_parameters s), ebt. split; [by destruct s|].
      split; [done|]. split; [|done].
      intros t. rewrite andb_true_r. same_type p t.
      * by rewrite Hebt.
      * by destruct (ebt !! t).
Qed.

Lemma consumers_before_app (cn : option string)
    (ps qs : list ParameterModel.t) (t : string) :
  consumers_before cn (ps ++ qs) t
  = (consumers_before cn ps t + consumers_before cn qs t)%nat.
Proof. unfold consumers_before. by rewrite List.filter_app, length_app. Qed.

(** What the whole loop does: it returns, the names it does not list keep
    their value, and every type has lost one entity for each parameter that
    popped one. *)
Lemma fill_parameters_spec (ps : list ParameterModel.t) (s : State.t)
    (ebt : gmap string (list string)) (um : UserMessage.t) :
  State.user_message s = Some um ->
  exists (ex' : gmap string string) (ebt' : gmap string (list string)),
    fill_parameters ps (s, ebt) = Ok (State.set_extracted_parameters ex' s, ebt')
    /\ (forall n, n ∉ map ParameterModel.name ps ->
                  ex' !! n = State.extracted_parameters s !! n)
    /\ (forall t, ebt' !! t =
                  drop (consumers_before (State.current_node s) ps t)
                    <$> ebt !! t).
Proof.
  intros Hum. revert s ebt Hum.
  induction ps as [|p ps IH]; intros s ebt Hum.
  - exists (State.extracted_parameters s), ebt. split; [by destruct s|].
    split; [done|]. intros t. simpl. by destruct (ebt !! t).
  - destruct (fill_parameter_spec p s ebt um Hum) as (ex1 & ebt1 & H1 & Hn1 & Ht1 & _).
    destruct (IH (State.set_extracted_parameters ex1 s) ebt1 Hum)
      as (ex2 & ebt2 & H2 & Hn2 & Ht2).
    exists ex2, ebt2. split; [|split].
    + cbn [fill_parameters]. rewrite H1. simpl. rewrite H2. done.
    + intros n Hn. simpl in Hn. apply not_elem_of_cons in Hn as [Hnp Hn].
      rewrite Hn2 by done. simpl. by apply Hn1.
    + intros t. rewrite Ht2, Ht1. simpl.
      change (p :: ps) with ([p] ++ ps). rewrite consumers_before_app.
      destruct (ebt !! t); simpl; [|done]. by rewrite drop_drop.
Qed.

(** What [_handle_missing_parameters] leaves in the state. *)
Lemma handle_missing_parameters_spec (ps : list ParameterModel.t) (s : State.t) :
  let s' := _handle_missing_parameters ps s in
  let missing := List.filter (is_missing (State.extracted_parameters s)) ps in
  State.missing_parameters s' = map ParameterModel.name missing
  /\ State.current_node s' = ParameterModel.name <$> head missing
  /\ State.bot_message s'
     = Some (from_option (fun p => segments (ParameterModel.prompt p)) []
               (head missing))
  /\ State.extracted_parameters s' = State.extracted_parameters s
  /\ State.parameters s' = State.parameters s
  /\ State.user_message s' = State.user_message s
  /\ State.thread_id s' = State.thread_id s.
Proof.
  unfold _handle_missing_parameters. simpl.
  destruct (List.filter _ ps) as [|p missing]; simpl; repeat split.
Qed.

(** What a call of [_process_intent] that is not a cancellation does for an
    intent with parameters: the loop runs on the live parameter list, then
    the missing parameters are recomputed. *)
Lemma process_intent_spec (q a : IntentModel.t) (s : State.t)
    (um : UserMessage.t) :
  IntentModel.intent_id q ≠ "cancel" ->
  IntentModel.parameters a ≠ [] ->
  State.user_message s = Some um ->
  Nlu.entities (State.nlu s) ≠ Some None ->
  exists (s' : State.t) (ex' : gmap string string)
         (ebt' : gmap string (list string)),
    fill_parameters (IntentModel.parameters a)
      (s, group_entities (entities_of s))
    = Ok (State.set_extracted_parameters ex' s, ebt')
    /\ _process_intent q a s = Ok (s', a)
    /\ State.extracted_parameters s' = ex'
    /\ State.missing_parameters s'
       = map ParameterModel.name
           (List.filter (is_missing ex') (IntentModel.parameters a))
    /\ State.current_node s'
       = ParameterModel.name
           <$> head (List.filter (is_missing ex') (IntentModel.parameters a))
    /\ State.bot_message s'
       = Some (from_option (fun p => segments (ParameterModel.prompt p)) []
                 (head (List.filter (is_missing ex') (IntentModel.parameters a))))
    /\ State.parameters s'
       = match State.parameters s with
         | [] => map entry_of (IntentModel.parameters a)
         | _ :: _ => State.parameters s
         end
    /\ State.complete s' = no_missing s'.
Proof.
  intros Hq Hps Hum Hents.
  destruct (fill_parameters_spec (IntentModel.parameters a) s
              (group_entities (entities_of s)) um Hum)
    as (ex' & ebt' & Hfill & _ & _).
  set (snap := match State.parameters s with
               | [] => map entry_of (IntentModel.parameters a)
               | _ :: _ => State.parameters s
               end).
  set (s1 := State.set_extracted_parameters ex' (State.set_parameters snap s)).
  set (s2 := _handle_missing_parameters (IntentModel.parameters a) s1).
  exists (State.set_complete (no_missing s2) s2), ex', ebt'.
  split; [exact Hfill|].
  pose proof (handle_missing_parameters_spec (IntentModel.parameters a) s1)
    as (Hm & Hcn & Hbot & Hex & Hpar & _).
  fold s2 in Hm, Hcn, Hbot, Hex, Hpar.
  split; [|by repeat split].
  unfold _process_intent. rewrite bool_decide_eq_false_2 by done.
  destruct (IntentModel.parameters a) as [|p ps] eqn:Hparams; [done|].
  assert (Hentities :
    match Nlu.entities (State.nlu s) with
    | None => Ok ∅
    | Some None => Raise AttributeError
    | Some (Some entities) => Ok entities
    end = Ok (entities_of s)).
  { unfold entities_of. by destruct (Nlu.entities (State.nlu s)) as [[e|]|]. }
  rewrite Hentities. cbn [mbind result_bind].
  assert (Hsnap :
    match State.parameters s with
    | [] => snapshot_parameters (p :: ps) s
    | _ :: _ => s
    end = State.set_parameters snap s).
  { subst snap. destruct (State.parameters s) eqn:Hsp.
    - by rewrite snapshot_parameters_eq, Hsp.
    - by rewrite <- Hsp, set_parameters_eta. }
  rewrite Hsnap, fill_parameters_set_parameters, Hfill.
  reflexivity.
Qed.

Lemma missing_names_elem (ex : gmap string string)
    (ps : list ParameterModel.t) (n : string) :
  n ∈ map ParameterModel.name (List.filter (is_missing ex) ps)
  <-> (n, true)
        ∈ map (fun p => (ParameterModel.name p, ParameterModel.required p)) ps
      /\ ex !! n = None.
Proof.
  rewrite !list_elem_of_fmap. split.
  - intros (p & -> & Hp). apply list_elem_of_In, filter_In in Hp as [Hin Hm].
    unfold is_missing in Hm. apply andb_true_iff in Hm as [Hreq Hnone].
    apply bool_decide_eq_true_1 in Hnone. split; [|done].
    exists p. split; [by rewrite Hreq|by apply list_elem_of_In].
  - intros [(p & Heq & Hp) Hnone]. injection Heq as -> Hreq.
    exists p. split; [done|]. apply list_elem_of_In, filter_In.
    split; [by apply list_elem_of_In|]. unfold is_missing.
    rewrite <- Hreq. by rewrite bool_decide_eq_true_2.
Qed.

Lemma no_missing_complete (s : State.t) :
  State.complete s = no_missing s -> complete_invariant s.
Proof.
  unfold complete_invariant, no_missing. intros ->.
  by destruct (State.missing_parameters s).
Qed.

(** C1 (as the code has it). A call of [_process_intent] on a state with a
    user message and an entity dictionary returns, and in the result
    [complete] is true if and only if [missing_parameters] is empty.  When
    the query intent is not ["cancel"] and the active intent has at least one
    parameter, the names in [missing_parameters] are exactly the names of
    the parameters of the active intent that are required and are no key of
    [extracted_parameters]; these are also the required entries of
    [parameters] of the state when that list was empty on entry.  On
    ["cancel"] the lists [missing_parameters] and [parameters] and the
    dictionary [extracted_parameters] are empty.  When the active intent has
    no parameter, [missing_parameters] and [extracted_parameters] are left
    as they were. *)
Theorem missing_parameters_invariant :
  forall (q a : IntentModel.t) (s : State.t) (um : UserMessage.t),
    State.user_message s = Some um ->
    Nlu.entities (State.nlu s) ≠ Some None ->
    exists (s' : State.t) (a' : IntentModel.t),
      _process_intent q a s = Ok (s', a')
      /\ complete_invariant s'
      /\ (IntentModel.intent_id q ≠ "cancel" ->
          IntentModel.parameters a ≠ [] ->
          missing_invariant (slots_of_intent a) s'
          /\ (State.parameters s = [] ->
              missing_invariant (slots_of_state s') s'))
      /\ (IntentModel.intent_id q = "cancel" ->
          State.missing_parameters s' = []
          /\ State.parameters s' = []
          /\ State.extracted_parameters s' = ∅)
      /\ (IntentModel.intent_id q ≠ "cancel" ->
          IntentModel.parameters a = [] ->
          State.missing_parameters s' = State.missing_parameters s
          /\ State.extracted_parameters s' = State.extracted_parameters s).
Proof.
  intros q a s um Hum Hents.
  destruct (decide (IntentModel.intent_id q = "cancel")) as [Hq|Hq].
  { eexists _, q. split.
    - unfold _process_intent. rewrite bool_decide_eq_true_2 by done.
      reflexivity.
    - split; [done|]. split; [done|]. split; done. }
  destruct (IntentModel.parameters a) as [|p ps] eqn:Hps.
  { exists (State.set_complete (no_missing s) s), a. split.
    - unfold _process_intent. rewrite bool_decide_eq_false_2 by done.
      by rewrite Hps.
    - split; [by apply no_missing_complete|]. split; [done|]. split; done. }
  destruct (process_intent_spec q a s um Hq) as
    (s' & ex' & ebt' & _ & Hs' & Hex & Hm & _ & _ & Hpar & Hc);
    [by rewrite Hps|done..|].
  exists s', a. split; [done|]. split; [by apply no_missing_complete|].
  split; [|split; done].
  intros _ _.
  assert (Hinv : missing_invariant (slots_of_intent a) s').
  { intros n. rewrite Hm, Hex. unfold slots_of_intent.
    apply missing_names_elem. }
  split; [exact Hinv|]. intros Hnil.
  unfold slots_of_state. rewrite Hpar, Hnil.
  intros n. rewrite (Hinv n). unfold slots_of_intent.
  rewrite <- list_fmap_compose. done.
Qed.

Lemma missing_parameters_invariant_witness :
  State.user_message Examples.turn1 = Some Examples.from_boston
  /\ Nlu.entities (State.nlu Examples.turn1) ≠ Some None
  /\ exists s' : State.t,
       _process_intent Examples.book_flight Examples.book_flight Examples.turn1
       = Ok (s', Examples.book_flight)
       /\ State.missing_parameters s' = ["destination"; "remark"]
       /\ complete_invariant s'
       /\ missing_invariant (slots_of_intent Examples.book_flight) s'.
Proof.
  split; [reflexivity|]. split; [discriminate|].
  destruct (missing_parameters_invariant Examples.book_flight
              Examples.book_flight Examples.turn1 Examples.from_boston)
    as (s' & a' & Hs' & Hc & Hinv & _); [reflexivity|discriminate|].
  exists s'. vm_compute in Hs'. injection Hs' as <- <-.
  split; [reflexivity|]. split; [reflexivity|]. split; [exact Hc|].
  destruct Hinv as [Hinv _]; [discriminate..|exact Hinv].
Defined.

(** C1 as stated fails: for an active intent without parameters the call
    keeps the [missing_parameters] of the state on entry, here a name that
    is a parameter neither of the active intent nor of the state. *)
Lemma stale_missing_parameters_survive :
  exists s' : State.t,
    _process_intent Examples.greet Examples.greet Examples.stale
    = Ok (s', Examples.greet)
    /\ ~ missing_invariant (slots_of_intent Examples.greet) s'
    /\ ~ missing_invariant (slots_of_state s') s'.
Proof.
  eexists. split; [reflexivity|].
  split; intros H; destruct (H "destination") as [H1 _];
    destruct H1 as [H1 _]; try (by apply list_elem_of_here);
    by apply elem_of_nil in H1.
Qed.

(** C3 (as the code has it). On a call that is not a cancellation, for an
    active intent with parameters: when the [parameters] list of the state
    is empty the call stores there the name, type and required flag of every
    parameter of the active intent, in order; when it is not empty the call
    leaves it as it is.  The stored entries are never read: the loops run
    over the parameter list of the active intent as it is now, so the names
    reported missing are those of that list, and the call gives the same
    extracted and missing slots, prompt and completion whatever entries the
    state holds. *)
Theorem parameter_entries_written_not_read :
  forall (q a : IntentModel.t) (s : State.t) (um : UserMessage.t),
    IntentModel.intent_id q ≠ "cancel" ->
    IntentModel.parameters a ≠ [] ->
    State.user_message s = Some um ->
    Nlu.entities (State.nlu s) ≠ Some None ->
    exists s' : State.t,
      _process_intent q a s = Ok (s', a)
      /\ (State.parameters s = [] ->
          State.parameters s' = map entry_of (IntentModel.parameters a))
      /\ (State.parameters s ≠ [] -> State.parameters s' = State.parameters s)
      /\ missing_invariant (slots_of_intent a) s'
      /\ (forall entries : list ParameterEntry.t,
            exists s'' : State.t,
              _process_intent q a (State.set_parameters entries s)
              = Ok (s'', a)
              /\ State.extracted_parameters s'' = State.extracted_parameters s'
              /\ State.missing_parameters s'' = State.missing_parameters s'
              /\ State.current_node s'' = State.current_node s'
              /\ State.bot_message s'' = State.bot_message s'
              /\ State.complete s'' = State.complete s').
Proof.
  intros q a s um Hq Hps Hum Hents.
  destruct (process_intent_spec q a s um Hq Hps Hum Hents) as
    (s' & ex' & ebt' & Hfill & Hs' & Hex & Hm & Hcn & Hbot & Hpar & Hc).
  exists s'. split; [done|]. split; [|split; [|split]].
  - intros Hnil. by rewrite Hpar, Hnil.
  - intros Hne. rewrite Hpar. by destruct (State.parameters s).
  - intros n. rewrite Hm, Hex. apply missing_names_elem.
  - intros entries.
    destruct (process_intent_spec q a (State.set_parameters entries s) um
                Hq Hps Hum Hents) as
      (s'' & ex'' & ebt'' & Hfill' & Hs'' & Hex' & Hm' & Hcn' & Hbot' & _ & Hc').
    change (entities_of (State.set_parameters entries s))
      with (entities_of s) in Hfill'.
    rewrite fill_parameters_set_parameters, Hfill in Hfill'.
    injection Hfill' as Hex'' _.
    assert (ex'' = ex') as -> by (symmetry; exact Hex'').
    exists s''. split; [done|].
    rewrite Hex', Hm', Hcn', Hbot', Hc', Hex, Hm, Hcn, Hbot, Hc.
    unfold no_missing. rewrite Hm, Hm'. done.
Qed.

Lemma parameter_entries_written_not_read_witness :
  IntentModel.intent_id Examples.book_flight ≠ "cancel"
  /\ IntentModel.parameters Examples.book_flight ≠ []
  /\ State.user_message Examples.turn1 = Some Examples.from_boston
  /\ Nlu.entities (State.nlu Examples.turn1) ≠ Some None
  /\ exists s' : State.t,
       _process_intent Examples.book_flight Examples.book_flight Examples.turn1
       = Ok (s', Examples.book_flight)
       /\ State.parameters s'
          = [entry_of Examples.origin; entry_of Examples.destination;
             entry_of Examples.remark].
Proof.
  split; [discriminate|]. split; [discriminate|]. split; [reflexivity|].
  split; [discriminate|].
  destruct (parameter_entries_written_not_read Examples.book_flight
              Examples.book_flight Examples.turn1 Examples.from_boston)
    as (s' & Hs' & Hsnap & _); [discriminate|discriminate|reflexivity|discriminate|].
  exists s'. split; [exact Hs'|]. by apply Hsnap.
Defined.

(** C3 as stated fails: the state holds the entries taken from the intent
    with the one parameter [origin]; the catalog now lists [destination],
    [origin] and [travel_date] for the intent.  With the old parameter list
    the turn fills [origin] and nothing is missing; with the new one, on the
    same state, the turn fills [destination] and reports [origin] and
    [travel_date] missing, and the entries in the state stay those of the
    old list. *)
Lemma catalog_change_alters_slots :
  State.parameters Examples.one_way_turn
  = map entry_of (IntentModel.parameters Examples.book_flight_one_way)
  /\ exists s1 s2 : State.t,
       _process_intent Examples.book_flight_one_way
         Examples.book_flight_one_way Examples.one_way_turn
       = Ok (s1, Examples.book_flight_one_way)
       /\ _process_intent Examples.book_flight_edited
            Examples.book_flight_edited Examples.one_way_turn
          = Ok (s2, Examples.book_flight_edited)
       /\ State.extracted_parameters s1 = {["origin" := "Boston"]}
       /\ State.missing_parameters s1 = []
       /\ State.extracted_parameters s2 = {["destination" := "Boston"]}
       /\ State.missing_parameters s2 = ["origin"; "travel_date"]
       /\ State.parameters s2 = [entry_of Examples.origin].
Proof.
  split; [reflexivity|]. eexists _, _.
  split; [reflexivity|]. split; [reflexivity|]. repeat split.
Qed.

(** C4 (as the code has it). On a call that is not a cancellation, for an
    active intent with parameters: when no required parameter is missing
    after the extraction pass, [current_node] is [None] and [bot_message] is
    the empty list, whatever it was on entry; when one is missing,
    [current_node] is the name of the first missing parameter, in the order
    of the intent, and [bot_message] is its prompt split at ["###"], one
    segment for each piece. *)
Theorem prompt_for_first_missing :
  forall (q a : IntentModel.t) (s : State.t) (um : UserMessage.t),
    IntentModel.intent_id q ≠ "cancel" ->
    IntentModel.parameters a ≠ [] ->
    State.user_message s = Some um ->
    Nlu.entities (State.nlu s) ≠ Some None ->
    exists s' : State.t,
      _process_intent q a s = Ok (s', a)
      /\ (State.missing_parameters s' = [] ->
          State.current_node s' = None /\ State.bot_message s' = Some [])
      /\ (forall (p : ParameterModel.t) (rest : list ParameterModel.t),
            List.filter (is_missing (State.extracted_parameters s'))
              (IntentModel.parameters a) = p :: rest ->
            State.missing_parameters s'
            = ParameterModel.name p :: map ParameterModel.name rest
            /\ State.current_node s' = Some (ParameterModel.name p)
            /\ State.bot_message s'
               = Some (map Segment.mk (split "###" (ParameterModel.prompt p)))).
Proof.
  intros q a s um Hq Hps Hum Hents.
  destruct (process_intent_spec q a s um Hq Hps Hum Hents) as
    (s' & ex' & ebt' & _ & Hs' & Hex & Hm & Hcn & Hbot & _).
  exists s'. split; [done|]. rewrite Hex, Hm, Hcn, Hbot. split.
  - intros Hnil. by destruct (List.filter _ _).
  - intros p rest ->. done.
Qed.

Lemma prompt_for_first_missing_witness :
  IntentModel.intent_id Examples.book_flight ≠ "cancel"
  /\ IntentModel.parameters Examples.book_flight ≠ []
  /\ State.user_message Examples.turn1 = Some Examples.from_boston
  /\ Nlu.entities (State.nlu Examples.turn1) ≠ Some None
  /\ exists s' : State.t,
       _process_intent Examples.book_flight Examples.book_flight Examples.turn1
       = Ok (s', Examples.book_flight)
       /\ State.current_node s' = Some "destination"
       /\ State.bot_message s'
          = Some [Segment.mk "Where do you fly to?";
                  Segment.mk "Any city will do."].
Proof.
  split; [discriminate|]. split; [discriminate|]. split; [reflexivity|].
  split; [discriminate|].
  destruct (prompt_for_first_missing Examples.book_flight
              Examples.book_flight Examples.turn1 Examples.from_boston)
    as (s' & Hs' & _ & Hfirst); [discriminate|discriminate|reflexivity|discriminate|].
  exists s'. split; [exact Hs'|].
  destruct (Hfirst Examples.destination [Examples.remark]) as (_ & Hcn & Hbot).
  - vm_compute in Hs'. injection Hs' as <-. reflexivity.
  - split; [exact Hcn|exact Hbot].
Defined.

(** C4 as stated fails: the reply on entry is ["old reply"]; the turn fills
    the one required parameter, nothing is missing, and the reply is now the
    empty list. *)
Lemma complete_turn_clears_bot_message :
  exists s' : State.t,
    _process_intent Examples.book_flight_one_way Examples.book_flight_one_way
      Examples.one_way_turn
    = Ok (s', Examples.book_flight_one_way)
    /\ State.missing_parameters s' = []
    /\ State.bot_message Examples.one_way_turn
       = Some [Segment.mk "old reply"]
    /\ State.bot_message s' = Some []
    /\ State.bot_message s' ≠ State.bot_message Examples.one_way_turn.
Proof.
  eexists. split; [reflexivity|]. repeat split. discriminate.
Qed.

(** C9 (as the code has it). Free text and entities: let [p] be a parameter
    of the active intent and the only one with its name, on a call that is
    not a cancellation.
    If [p] has the type ["free_text"] and [current_node] is its name, the
    value of [p] in [extracted_parameters] is the whole text of the user
    message, whatever the entities are.  Otherwise the value of [p] is the
    first entity of the type of [p] that no parameter before [p] has popped
    (the entity at the position given by the number of such parameters),
    which replaces the value the state had for [p]; when there is no such
    entity the value of [p] is the one the state had on entry.  The
    entities of a type are the one value the NLU dictionary has for it. *)
Theorem free_text_and_entity_filling :
  forall (q a : IntentModel.t) (s : State.t) (um : UserMessage.t)
         (before after : list ParameterModel.t) (p : ParameterModel.t),
    IntentModel.intent_id q ≠ "cancel" ->
    IntentModel.parameters a = before ++ p :: after ->
    ParameterModel.name p ∉ map ParameterModel.name before ->
    ParameterModel.name p ∉ map ParameterModel.name after ->
    State.user_message s = Some um ->
    Nlu.entities (State.nlu s) ≠ Some None ->
    exists s' : State.t,
      _process_intent q a s = Ok (s', a)
      /\ (ParameterModel.type p = "free_text"
          /\ State.current_node s = Some (ParameterModel.name p) ->
          State.extracted_parameters s' !! ParameterModel.name p
          = Some (UserMessage.text um))
      /\ (~ (ParameterModel.type p = "free_text"
             /\ State.current_node s = Some (ParameterModel.name p)) ->
          State.extracted_parameters s' !! ParameterModel.name p
          = match default [] (group_entities (entities_of s)
                                !! ParameterModel.type p)
                  !! consumers_before (State.current_node s) before
                       (ParameterModel.type p) with
            | Some v => Some v
            | None => State.extracted_parameters s !! ParameterModel.name p
            end)
      /\ (forall t : string,
            group_entities (entities_of s) !! t
            = (fun v => [v]) <$> entities_of s !! t).
Proof.
  intros q a s um before after p Hq Hps Hbefore Hafter Hum Hents.
  destruct (process_intent_spec q a s um Hq) as
    (s' & ex' & ebt' & Hfill & Hs' & Hex & _);
    [rewrite Hps; by destruct before|done..|].
  exists s'. split; [done|]. rewrite Hex.
  set (ebt := group_entities (entities_of s)) in *.
  (* the loop, cut before and after [p] *)
  rewrite Hps, fill_parameters_app in Hfill.
  destruct (fill_parameters_spec before s ebt um Hum)
    as (ex1 & ebt1 & H1 & Hn1 & Ht1).
  rewrite H1 in Hfill. cbn [mbind result_bind fill_parameters] in Hfill.
  destruct (fill_parameter_spec p (State.set_extracted_parameters ex1 s)
              ebt1 um Hum) as (ex2 & ebt2 & H2 & _ & _ & Hp2).
  rewrite H2 in Hfill. cbn [mbind result_bind] in Hfill.
  destruct (fill_parameters_spec after
              (State.set_extracted_parameters ex2
                 (State.set_extracted_parameters ex1 s)) ebt2 um Hum)
    as (ex3 & ebt3 & H3 & Hn3 & _).
  rewrite H3 in Hfill. injection Hfill as Hex3 _.
  assert (ex' = ex3) as -> by (symmetry; exact Hex3).
  rewrite (Hn3 _ Hafter). cbn [State.extracted_parameters
    State.set_extracted_parameters]. rewrite Hp2.
  cbn [State.current_node State.extracted_parameters
       State.set_extracted_parameters].
  unfold takes_text.
  split; [|split].
  - intros [Htype Hnode]. by rewrite !bool_decide_eq_true_2.
  - intros Hno.
    assert (bool_decide (ParameterModel.type p = "free_text")
            && bool_decide (State.current_node s = Some (ParameterModel.name p))
            = false) as ->.
    { apply andb_false_iff.
      destruct (decide (ParameterModel.type p = "free_text")) as [Ht|Ht].
      - right. apply bool_decide_eq_false_2. intros Hn. by apply Hno.
      - left. by apply bool_decide_eq_false_2. }
    rewrite Ht1, (Hn1 _ Hbefore).
    destruct (ebt !! ParameterModel.type p) as [l|]; simpl.
    + rewrite lookup_drop, Nat.add_0_r. done.
    + done.
  - intros t. apply group_entities_lookup.
Qed.

Lemma free_text_and_entity_filling_witness :
  IntentModel.intent_id Examples.book_flight ≠ "cancel"
  /\ IntentModel.parameters Examples.book_flight
     = [Examples.origin; Examples.destination] ++ Examples.remark :: []
  /\ (ParameterModel.name Examples.remark
      ∉ map ParameterModel.name [Examples.origin; Examples.destination])
  /\ (ParameterModel.name Examples.remark ∉ map ParameterModel.name [])
  /\ State.user_message Examples.remarking = Some Examples.window_seat
  /\ Nlu.entities (State.nlu Examples.remarking) ≠ Some None
  /\ exists s' : State.t,
       _process_intent Examples.book_flight Examples.book_flight
         Examples.remarking
       = Ok (s', Examples.book_flight)
       /\ State.extracted_parameters s' !! "remark"
          = Some "a window seat, please"
       /\ State.extracted_parameters s' !! "origin" = Some "Boston"
       /\ State.extracted_parameters s' !! "destination" = Some "Denver".
Proof.
  assert (Hb : ParameterModel.name Examples.remark
               ∉ map ParameterModel.name
                   [Examples.origin; Examples.destination]).
  { intros H. repeat (apply elem_of_cons in H as [H|H]; [discriminate H|]).
    by apply elem_of_nil in H. }
  assert (Ha : ParameterModel.name Examples.remark ∉ map ParameterModel.name []).
  { apply not_elem_of_nil. }
  split; [discriminate|]. split; [reflexivity|]. split; [exact Hb|].
  split; [exact Ha|]. split; [reflexivity|]. split; [discriminate|].
  destruct (free_text_and_entity_filling Examples.book_flight
              Examples.book_flight Examples.remarking Examples.window_seat
              [Examples.origin; Examples.destination] [] Examples.remark)
    as (s' & Hs' & Htext & _);
    [discriminate|reflexivity|exact Hb|exact Ha|reflexivity|discriminate|].
  exists s'. split; [exact Hs'|]. split.
  - exact (Htext (conj eq_refl eq_refl)).
  - vm_compute in Hs'. injection Hs' as <-. split; reflexivity.
Defined.

(** C9 as stated fails when two parameters of the intent share a name:
    [remark] is a free-text parameter and the slot being prompted, yet its
    value after the call is the city of the NLU result, which the later
    parameter of the same name has assigned. *)
Lemma later_parameter_overwrites_free_text :
  exists s' : State.t,
    _process_intent Examples.book_flight_twice Examples.book_flight_twice
      Examples.remarking
    = Ok (s', Examples.book_flight_twice)
    /\ Examples.remark ∈ IntentModel.parameters Examples.book_flight_twice
    /\ ParameterModel.type Examples.remark = "free_text"
    /\ State.current_node Examples.remarking
       = Some (ParameterModel.name Examples.remark)
    /\ State.user_message Examples.remarking = Some Examples.window_seat
    /\ State.extracted_parameters s' !! ParameterModel.name Examples.remark
       = Some "Boston"
    /\ State.extracted_parameters s' !! ParameterModel.name Examples.remark
       ≠ Some (UserMessage.text Examples.window_seat).
Proof.
  eexists. split; [reflexivity|].
  split; [apply list_elem_of_here|]. split; [reflexivity|].
  split; [reflexivity|]. split; [reflexivity|]. split; [reflexivity|].
  discriminate.
Qed.

(** ** The response phase *)

Section ApiTriggerFacts.
Variable Json : Type.
Variable render :
  string -> gmap string string -> gmap string string -> option Json ->
  result string.
Variable json_loads : string -> result Json.
Variable call_api :
  string -> string -> list (string * string) -> api_parameters Json ->
  bool -> result Json.

Lemma call_intent_api_prepared (intent : IntentModel.t) (d : ApiDetails.t)
    (s : State.t) (rendered_url : string)
    (parameters : api_parameters Json) :
  IntentModel.api_details intent = Some d ->
  prepared Json render json_loads d s rendered_url parameters ->
  _call_intent_api Json render json_loads call_api intent s
  = match call_api rendered_url (ApiDetails.request_type d)
            (ApiDetails.get_headers d) parameters (ApiDetails.is_json d) with
    | Ok response => Ok response
    | Raise (APICallExcetion _) =>
        Raise (DialogueManagerException "API call failed")
    | Raise e => Raise e
    end.
Proof.
  intros Hd [Hurl Hparams]. unfold _call_intent_api. rewrite Hd, Hurl.
  cbn [mbind result_bind].
  destruct (ApiDetails.is_json d).
  - destruct Hparams as (rj & body & Hrj & Hbody & ->).
    rewrite Hrj. cbn [mbind result_bind]. rewrite Hbody. reflexivity.
  - rewrite Hparams. reflexivity.
Qed.

(** C5. API failure: for an intent with [api_trigger] and API details,
    when the invoker fails with its [APICallExcetion],
    [_handle_api_trigger] raises nothing and returns a state whose
    [bot_message] is the one segment
    "Service is not available. Please try again later."; every other field
    of the state is as it was.  Every other error of the invoker, and every error
    of the preparation of the request or of the rendering of the answer,
    leaves [_handle_api_trigger] as it was raised (the collaborators do not
    raise [DialogueManagerException], the class of the dialogue manager
    that carries the failure of the invoker to the handler). *)
Theorem api_failure_gives_fallback :
  forall (intent : IntentModel.t) (d : ApiDetails.t) (s : State.t),
    IntentModel.api_trigger intent = true ->
    IntentModel.api_details intent = Some d ->
    (forall (rendered_url : string) (parameters : api_parameters Json)
            (msg : string),
        prepared Json render json_loads d s rendered_url parameters ->
        call_api rendered_url (ApiDetails.request_type d)
          (ApiDetails.get_headers d) parameters (ApiDetails.is_json d)
        = Raise (APICallExcetion msg) ->
        exists s' : State.t,
          _handle_api_trigger Json render json_loads call_api intent s
          = Ok s'
          /\ State.bot_message s'
             = Some [Segment.mk
                       "Service is not available. Please try again later."]
          /\ State.thread_id s' = State.thread_id s
          /\ State.user_message s' = State.user_message s
          /\ State.nlu s' = State.nlu s
          /\ State.context s' = State.context s
          /\ State.intent s' = State.intent s
          /\ State.parameters s' = State.parameters s
          /\ State.extracted_parameters s' = State.extracted_parameters s
          /\ State.missing_parameters s' = State.missing_parameters s
          /\ State.complete s' = State.complete s
          /\ State.current_node s' = State.current_node s
          /\ State.date s' = State.date s)
    /\ (forall (rendered_url : string) (parameters : api_parameters Json)
               (e : exn),
          prepared Json render json_loads d s rendered_url parameters ->
          call_api rendered_url (ApiDetails.request_type d)
            (ApiDetails.get_headers d) parameters (ApiDetails.is_json d)
          = Raise e ->
          (forall msg, e ≠ APICallExcetion msg) ->
          (forall msg, e ≠ DialogueManagerException msg) ->
          _handle_api_trigger Json render json_loads call_api intent s = Raise e)
    /\ (forall e : exn,
          (forall msg, e ≠ DialogueManagerException msg) ->
          _call_intent_api Json render json_loads call_api intent s = Raise e
          \/ (exists api_result : Json,
                _call_intent_api Json render json_loads call_api intent s = Ok api_result
                /\ render (IntentModel.speech_response intent)
                     (State.context s) (State.extracted_parameters s)
                     (Some api_result) = Raise e) ->
          _handle_api_trigger Json render json_loads call_api intent s = Raise e).
Proof.
  intros intent d s Htrigger Hd.
  assert (Hguard : IntentModel.api_trigger intent
                   && bool_decide (is_Some (IntentModel.api_details intent))
                   = true).
  { rewrite Htrigger, Hd. by rewrite bool_decide_eq_true_2. }
  assert (Hraise : forall e : exn,
    (forall msg, e ≠ DialogueManagerException msg) ->
    _call_intent_api Json render json_loads call_api intent s = Raise e ->
    _handle_api_trigger Json render json_loads call_api intent s = Raise e).
  { intros e Hne Hcall. unfold _handle_api_trigger.
    rewrite Hguard, Hcall. cbn [mbind result_bind].
    destruct e; try reflexivity. by destruct (Hne msg). }
  split; [|split].
  - intros rendered_url parameters msg Hprep Hcall.
    unfold _handle_api_trigger. rewrite Hguard.
    rewrite (call_intent_api_prepared intent d s _ _ Hd Hprep), Hcall.
    eexists. split; [reflexivity|]. by repeat split.
  - intros rendered_url parameters e Hprep Hcall Hne1 Hne2.
    apply Hraise; [done|].
    rewrite (call_intent_api_prepared intent d s _ _ Hd Hprep), Hcall.
    destruct e; try reflexivity. by destruct (Hne1 msg).
  - intros e Hne [Hcall|(r & Hcall & Hrender)]; [by apply Hraise|].
    unfold _handle_api_trigger. rewrite Hguard, Hcall.
    cbn [mbind result_bind]. rewrite Hrender. cbn [mbind result_bind].
    destruct e; try reflexivity. by destruct (Hne msg).
Qed.
End ApiTriggerFacts.

Lemma api_failure_gives_fallback_witness :
  IntentModel.api_trigger Examples.check_balance = true
  /\ IntentModel.api_details Examples.check_balance
     = Some Examples.balance_api
  /\ Examples.api_down "https://bank.example/balance" "GET" []
       (ExtractedParameters
          (State.extracted_parameters Examples.finished)) false
     = Raise (APICallExcetion "Request timed out after 30 seconds")
  /\ exists s' : State.t,
       _handle_api_trigger string Examples.plain_render Examples.text_loads
         Examples.api_down Examples.check_balance Examples.finished
       = Ok s'
       /\ State.bot_message s'
          = Some [Segment.mk
                    "Service is not available. Please try again later."]
       /\ State.extracted_parameters s'
          = State.extracted_parameters Examples.finished.
Proof.
  split; [reflexivity|]. split; [reflexivity|]. split; [reflexivity|].
  destruct (api_failure_gives_fallback string Examples.plain_render
              Examples.text_loads Examples.api_down Examples.check_balance
              Examples.balance_api Examples.finished eq_refl eq_refl)
    as (Habsorbed & _).
  destruct (Habsorbed "https://bank.example/balance"
              (ExtractedParameters
                 (State.extracted_parameters Examples.finished))
              "Request timed out after 30 seconds")
    as (s' & Hs' & Hbot & _ & _ & _ & _ & _ & _ & Hex & _).
  - split; reflexivity.
  - reflexivity.
  - exists s'. split; [exact Hs'|]. split; [exact Hbot|exact Hex].
Defined.

(** ** Persistence *)

Section PersistenceFacts.
Variable isoformat : Z -> string.
Variable fromisoformat : string -> result Z.
Variable rehydrate : UserMessage.t -> result UserMessage.t.

Lemma find_one_last (thread_id : string) (d : Document.t) (c : collection) :
  find_one thread_id (insert_one d c)
  = if bool_decide (Document.thread_id d = Some thread_id)
    then Some (project d)
    else find_one thread_id c.
Proof.
  unfold find_one, insert_one. rewrite rev_unit. cbn [List.find].
  by destruct (bool_decide (Document.thread_id d = Some thread_id)).
Qed.

Lemma find_one_saves (thread_id : string) (calls : list (string * State.t))
    (c : collection) :
  Forall (fun call => State.thread_id call.2 ≠ thread_id) calls ->
  find_one thread_id (saves isoformat calls c) = find_one thread_id c.
Proof.
  unfold saves. revert c.
  induction calls as [|[tid o] calls IH]; intros c Hcalls; [done|].
  apply Forall_cons in Hcalls as [Ho Hcalls]. cbn [foldl].
  rewrite IH by done. unfold save. rewrite find_one_last.
  rewrite bool_decide_eq_false_2; [done|].
  simpl in *. congruence.
Qed.

(** C10 (as the code has it). A state saved and read back under its own
    thread id, with only states of other threads saved in between, comes
    back with its [thread_id], [context], [parameters],
    [extracted_parameters], [missing_parameters], [complete] and
    [current_node]; its [intent] comes back too, except that the intent
    [None] comes back as the empty dictionary; [user_message] and
    [bot_message] are [None], [nlu] is the empty dictionary and [date] is
    the time of the call of [get], whatever was saved.  The thread id
    given to [save] plays no part. *)
Theorem save_then_get :
  forall (now : Z) (tid : string) (s : State.t)
         (calls : list (string * State.t)) (c : collection),
    Forall (fun call => State.thread_id call.2 ≠ State.thread_id s) calls ->
    exists s' : State.t,
      get fromisoformat rehydrate now (State.thread_id s)
        (saves isoformat calls (save isoformat tid s c))
      = Ok (Some s')
      /\ State.thread_id s' = State.thread_id s
      /\ State.context s' = State.context s
      /\ State.intent s' = Some (default ∅ (State.intent s))
      /\ State.parameters s' = State.parameters s
      /\ State.extracted_parameters s' = State.extracted_parameters s
      /\ State.missing_parameters s' = State.missing_parameters s
      /\ State.complete s' = State.complete s
      /\ State.current_node s' = State.current_node s
      /\ State.user_message s' = None
      /\ State.bot_message s' = None
      /\ State.nlu s' = Nlu.empty
      /\ State.date s' = now.
Proof.
  intros now tid s calls c Hcalls. unfold get.
  rewrite find_one_saves by done. unfold save. rewrite find_one_last.
  cbn [to_dict Document.thread_id]. rewrite bool_decide_eq_true_2 by done.
  eexists. split; [reflexivity|]. repeat split.
Qed.
End PersistenceFacts.

Lemma save_then_get_witness :
  Forall (fun call : string * State.t =>
            State.thread_id call.2 ≠ State.thread_id Examples.filling)
    [("t2", State.set_complete true Examples.fresh_t2)]
  /\ exists s' : State.t,
       get Examples.fromisoformat Examples.rehydrate 5 "t1"
         (saves Examples.isoformat
            [("t2", State.set_complete true Examples.fresh_t2)]
            (save Examples.isoformat "t1" Examples.filling []))
       = Ok (Some s')
       /\ State.extracted_parameters s' = {["origin" := "Boston"]}
       /\ State.missing_parameters s' = ["destination"; "remark"]
       /\ State.current_node s' = Some "destination"
       /\ State.bot_message s' = None
       /\ State.date s' = 5%Z.
Proof.
  assert (H : Forall (fun call : string * State.t =>
                        State.thread_id call.2
                        ≠ State.thread_id Examples.filling)
                [("t2", State.set_complete true Examples.fresh_t2)]).
  { apply Forall_cons. split; [discriminate|apply Forall_nil_2]. }
  split; [exact H|].
  destruct (save_then_get Examples.isoformat Examples.fromisoformat
              Examples.rehydrate 5 "t1" Examples.filling
              [("t2", State.set_complete true Examples.fresh_t2)] [] H)
    as (s' & Hs' & _ & _ & _ & _ & Hex & Hm & _ & Hcn & _ & Hbot & _ & Hdate).
  exists s'. split; [exact Hs'|].
  rewrite Hex, Hm, Hcn, Hbot, Hdate. repeat split.
Defined.

(** C10 as stated fails on [intent]: a state right after [update] on a
    finished turn has the intent [None]; saved and read back, its intent is
    the empty dictionary. *)
Lemma intent_none_read_back_empty :
  State.intent Examples.restarted = None
  /\ exists s' : State.t,
       get Examples.fromisoformat Examples.rehydrate 5
         (State.thread_id Examples.restarted)
         (save Examples.isoformat (State.thread_id Examples.restarted)
            Examples.restarted [])
       = Ok (Some s')
       /\ State.intent s' = Some ∅
       /\ State.intent s' ≠ State.intent Examples.restarted.
Proof.
  split; [reflexivity|]. eexists. split; [reflexivity|].
  split; [reflexivity|]. discriminate.
Qed.

(** * Further properties of the code *)

(** ** [split_sentence] *)

Lemma prefix_app_exists (sep s : string) :
  String.prefix sep s = true -> exists rest : string, s = sep +:+ rest.
Proof.
  revert s. induction sep as [|a sep IH]; intros s Hp.
  - by exists s.
  - destruct s as [|c s]; [done|].
    change (String.prefix (String a sep) (String c s))
      with (if ascii_dec a c then String.prefix sep s else false) in Hp.
    destruct (ascii_dec a c) as [<-|]; [|done].
    destruct (IH s Hp) as [rest ->]. by exists rest.
Qed.

Lemma prefix_app_true (sep rest : string) :
  String.prefix sep (sep +:+ rest) = true.
Proof.
  induction sep as [|a sep IH]; [by destruct rest|].
  rewrite app_string_cons.
  change (String.prefix (String a sep) (String a (sep +:+ rest)))
    with (if ascii_dec a a then String.prefix sep (sep +:+ rest) else false).
  by destruct (ascii_dec a a).
Qed.

Lemma app_string_length (a b : string) :
  String.length (a +:+ b) = (String.length a + String.length b)%nat.
Proof.
  induction a as [|x a IH]; [done|].
  rewrite app_string_cons. simpl. by rewrite IH.
Qed.

(** After an occurrence of the separator the scan passes over the rest of
    the occurrence. *)
Lemma split_go_skip (sep t rest cur : string) :
  split_go sep (String.length t) cur (t +:+ rest) = split_go sep 0 cur rest.
Proof.
  induction t as [|x t IH]; [by destruct rest|].
  rewrite app_string_cons. exact IH.
Qed.

Lemma split_go_found (a : ascii) (tl cur rest : string) :
  split_go (String a tl) 0 cur (String a tl +:+ rest)
  = cur :: split_go (String a tl) 0 EmptyString rest.
Proof.
  assert (Hp : String.prefix (String a tl) (String a (tl +:+ rest)) = true).
  { rewrite <- app_string_cons. apply prefix_app_true. }
  rewrite app_string_cons. cbn [split_go]. rewrite Hp.
  cbn [String.length Nat.sub]. rewrite Nat.sub_0_r.
  by rewrite split_go_skip.
Qed.

Lemma split_go_not_found (sep : string) (c : ascii) (s cur : string) :
  String.prefix sep (String c s) = false ->
  split_go sep 0 cur (String c s)
  = split_go sep 0 (cur +:+ String c EmptyString) s.
Proof. intros Hp. cbn [split_go]. by rewrite Hp. Qed.

Lemma split_go_join (a : ascii) (tl : string) (n : nat) :
  forall s cur : string,
    (String.length s <= n)%nat ->
    split_go (String a tl) 0 cur s ≠ []
    /\ String.concat (String a tl) (split_go (String a tl) 0 cur s)
       = cur +:+ s.
Proof.
  induction n as [|n IH]; intros s cur Hlen.
  - destruct s; [|simpl in Hlen; lia]. split; [done|].
    simpl. by rewrite app_string_empty.
  - destruct s as [|c s].
    { split; [done|]. simpl. by rewrite app_string_empty. }
    destruct (String.prefix (String a tl) (String c s)) eqn:Hp.
    + destruct (prefix_app_exists _ _ Hp) as [rest Hrest].
      rewrite Hrest, split_go_found.
      assert (String.length rest <= n)%nat as Hle.
      { apply (f_equal String.length) in Hrest.
        rewrite app_string_length in Hrest. simpl in *. lia. }
      destruct (IH rest EmptyString Hle) as [Hne Hjoin].
      split; [done|].
      destruct (split_go (String a tl) 0 EmptyString rest) as [|x xs] eqn:Hl;
        [done|].
      change (String.concat (String a tl) (cur :: x :: xs))
        with (cur +:+ String a tl
                  +:+ String.concat (String a tl) (x :: xs)).
      by rewrite Hjoin.
    + rewrite split_go_not_found by done.
      destruct (IH s (cur +:+ String c EmptyString)) as [Hne Hjoin];
        [simpl in Hlen; lia|].
      split; [done|]. by rewrite Hjoin, app_string_assoc.
Qed.

(** X1. Joining the segments of a sentence with ["###"] gives the sentence
    back, and there is always at least one segment (the empty sentence has
    the one empty segment). *)
Theorem split_sentence_join :
  forall sentence : string,
    String.concat "###" (split_sentence sentence) = sentence
    /\ split_sentence sentence ≠ [].
Proof.
  intros sentence. unfold split_sentence, split.
  destruct (split_go_join "#" "##" (String.length sentence) sentence
              EmptyString (le_n _)) as [Hne Hjoin].
  split; [exact Hjoin|exact Hne].
Qed.

Lemma app_string_snoc_split (c : ascii) (a b cur : string) :
  cur +:+ String c EmptyString = a +:+ b ->
  b ≠ EmptyString ->
  exists b0 : string, b = b0 +:+ String c EmptyString /\ cur = a +:+ b0.
Proof.
  revert cur. induction a as [|x a IH]; intros cur Heq Hb.
  - exists cur. by split.
  - rewrite app_string_cons in Heq. destruct cur as [|y cur].
    + injection Heq as _ Heq. destruct a; [|done].
      by destruct b.
    + rewrite app_string_cons in Heq. injection Heq as -> Heq.
      destruct (IH cur Heq Hb) as (b0 & -> & ->). by exists b0.
Qed.

Lemma split_go_pieces (a : ascii) (tl : string) (n : nat) :
  forall s cur : string,
    (String.length s <= n)%nat ->
    (forall x b : string,
        cur = x +:+ b -> b ≠ EmptyString ->
        String.prefix (String a tl) (b +:+ s) = false) ->
    forall piece : string,
      piece ∈ split_go (String a tl) 0 cur s ->
      forall x y : string, piece ≠ x +:+ String a tl +:+ y.
Proof.
  assert (Hcur : forall s cur : string,
    (forall x b : string,
        cur = x +:+ b -> b ≠ EmptyString ->
        String.prefix (String a tl) (b +:+ s) = false) ->
    forall x y : string, cur ≠ x +:+ String a tl +:+ y).
  { intros s cur Hinv x y Heq.
    specialize (Hinv x (String a tl +:+ y) Heq).
    rewrite app_string_assoc, prefix_app_true in Hinv.
    by discriminate Hinv. }
  induction n as [|n IH]; intros s cur Hlen Hinv piece Hin.
  - destruct s; [|simpl in Hlen; lia].
    apply list_elem_of_singleton in Hin as ->. by apply (Hcur EmptyString).
  - destruct s as [|c s].
    { apply list_elem_of_singleton in Hin as ->. by apply (Hcur EmptyString). }
    destruct (String.prefix (String a tl) (String c s)) eqn:Hp.
    + destruct (prefix_app_exists _ _ Hp) as [rest Hrest].
      rewrite Hrest, split_go_found in Hin.
      apply elem_of_cons in Hin as [->|Hin].
      * apply (Hcur (String c s)). exact Hinv.
      * apply (IH rest EmptyString); [| |exact Hin].
        -- apply (f_equal String.length) in Hrest.
           rewrite app_string_length in Hrest. simpl in *. lia.
        -- intros x b Heq Hb. destruct x; [|done]. by destruct b.
    + rewrite split_go_not_found in Hin by done.
      apply (IH s (cur +:+ String c EmptyString)); [simpl in Hlen; lia| |exact Hin].
      intros x b Heq Hb.
      destruct (app_string_snoc_split c x b cur Heq Hb) as (b0 & -> & ->).
      rewrite app_string_assoc.
      change (String c EmptyString +:+ s) with (String c s).
      destruct b0 as [|y b0]; [exact Hp|].
      by apply (Hinv x (String y b0)).
Qed.

(** X2. No segment of a sentence contains the delimiter ["###"]. *)
Theorem split_sentence_segments_without_delimiter :
  forall (sentence piece : string),
    piece ∈ split_sentence sentence ->
    forall x y : string, piece ≠ x +:+ "###" +:+ y.
Proof.
  intros sentence piece Hin.
  apply (split_go_pieces "#" "##" (String.length sentence) sentence
           EmptyString (le_n _)); [|exact Hin].
  intros x b Heq Hb. destruct x; [|done]. by destruct b.
Qed.

Lemma split_sentence_segments_without_delimiter_witness :
  "Any city will do." ∈ split_sentence "Where do you fly to?###Any city will do."
  /\ "Any city will do." ≠ "Any" +:+ "###" +:+ "will do.".
Proof.
  assert (H : "Any city will do."
              ∈ split_sentence "Where do you fly to?###Any city will do.").
  { assert (E : split_sentence "Where do you fly to?###Any city will do."
                = ["Where do you fly to?"; "Any city will do."])
      by (vm_compute; reflexivity).
    rewrite E. apply list_elem_of_further, list_elem_of_here. }
  split; [exact H|].
  exact (split_sentence_segments_without_delimiter _ _ H "Any" "will do.").
Defined.

(** ** [State.update] and [State.get_active_intent_id] *)

(** X3. A turn in progress is carried over: on a state with
    [complete = false], [update] keeps the reply, the intent, the parameter
    entries, the extracted and the missing parameters, the prompted slot, the
    NLU result and the thread id, and so the active intent id; it sets the
    user message and the date.  On a state with [complete = true] the active
    intent id after [update] is [None]. *)
Theorem update_keeps_unfinished_state :
  forall (now : Z) (message : UserMessage.t) (s : State.t),
    let s' := State.update now message s in
    State.user_message s' = Some message
    /\ State.date s' = now
    /\ (State.complete s = true -> get_active_intent_id s' = None)
    /\ (State.complete s = false ->
        State.bot_message s' = State.bot_message s
        /\ State.intent s' = State.intent s
        /\ State.parameters s' = State.parameters s
        /\ State.extracted_parameters s' = State.extracted_parameters s
        /\ State.missing_parameters s' = State.missing_parameters s
        /\ State.current_node s' = State.current_node s
        /\ State.nlu s' = State.nlu s
        /\ State.thread_id s' = State.thread_id s
        /\ State.complete s' = false
        /\ get_active_intent_id s' = get_active_intent_id s).
Proof.
  intros now message s s'. subst s'. unfold State.update, get_active_intent_id.
  destruct (UserMessage.context message) as [c|];
    destruct (State.complete s) eqn:Hc; simpl; rewrite ?Hc; simpl;
    repeat split; done.
Qed.

(** ** [State.to_dict] and [State.from_dict] *)

(** X4. The dictionary of a state read back by [from_dict]: the thread id,
    the reply, the context, the parameter entries, the extracted and missing
    parameters, [complete] and [current_node] come back as they were; the
    intent comes back with [None] turned into the empty dictionary; the NLU
    result is lost; the user message is what its reconstruction gives
    ([None] when it fails), and the date is the parsed text of the date, or
    the time of the call when the text does not parse. *)
Theorem from_dict_of_to_dict :
  forall (isoformat : Z -> string) (fromisoformat : string -> result Z)
         (rehydrate : UserMessage.t -> result UserMessage.t)
         (now : Z) (s : State.t),
    exists s' : State.t,
      from_dict fromisoformat rehydrate now (to_dict isoformat s) = Ok s'
      /\ State.thread_id s' = State.thread_id s
      /\ State.bot_message s' = State.bot_message s
      /\ State.context s' = State.context s
      /\ State.parameters s' = State.parameters s
      /\ State.extracted_parameters s' = State.extracted_parameters s
      /\ State.missing_parameters s' = State.missing_parameters s
      /\ State.complete s' = State.complete s
      /\ State.current_node s' = State.current_node s
      /\ State.intent s' = Some (default ∅ (State.intent s))
      /\ State.nlu s' = Nlu.empty
      /\ State.user_message s'
         = (um ← State.user_message s;
            match rehydrate um with
            | Ok um' => Some um'
            | Raise _ => None
            end)
      /\ State.date s'
         = match fromisoformat (isoformat (State.date s)) with
           | Ok t => t
           | Raise _ => now
           end.
Proof.
  intros isoformat fromisoformat rehydrate now s.
  eexists. split; [reflexivity|]. simpl.
  repeat split.
  all: try (by destruct (State.user_message s)).
  all: by destruct (fromisoformat (isoformat (State.date s))).
Qed.

(** ** [MemorySaverMongo] *)

Section MongoFacts.
Variable isoformat : Z -> string.
Variable fromisoformat : string -> result Z.
Variable rehydrate : UserMessage.t -> result UserMessage.t.

Lemma from_dict_thread (now : Z) (d : Document.t) (tid : string) :
  Document.thread_id d = Some tid ->
  exists s : State.t,
    from_dict fromisoformat rehydrate now d = Ok s /\ State.thread_id s = tid.
Proof. intros Hd. unfold from_dict. rewrite Hd. by eexists. Qed.

(** What [get] gives on a collection: [None] and no document of the
    thread, or a state of the thread and a document of the thread. *)
Lemma get_cases (now : Z) (thread_id : string) (c : collection) :
  (get fromisoformat rehydrate now thread_id c = Ok None
   /\ forall d : Document.t,
        d ∈ c -> Document.thread_id d ≠ Some thread_id)
  \/ (exists s : State.t,
        get fromisoformat rehydrate now thread_id c = Ok (Some s)
        /\ State.thread_id s = thread_id
        /\ exists d : Document.t,
             d ∈ c /\ Document.thread_id d = Some thread_id).
Proof.
  unfold get, find_one.
  destruct (List.find _ (rev c)) as [d|] eqn:Hfind; simpl.
  - right. apply find_some in Hfind as [Hin Hd].
    apply bool_decide_eq_true_1 in Hd.
    destruct (from_dict_thread now (project d) thread_id Hd)
      as (s & -> & Hs).
    exists s. split; [done|]. split; [done|]. exists d. split; [|done].
    apply list_elem_of_In. by apply in_rev.
  - left. split; [done|]. intros d Hin Hd.
    assert (Hin' : In d (rev c))
      by (rewrite <- in_rev; by apply list_elem_of_In).
    pose proof (find_none _ _ Hfind d Hin') as Hf.
    simpl in Hf. by rewrite bool_decide_eq_true_2 in Hf.
Qed.

(** X5. What [get] reads from a collection whose query is answered (the
    collection is the list of its documents; a failure of the driver is not
    part of it): the answer is [None] exactly when the collection has no
    document of the thread; a state that is returned has the thread id
    asked for and the collection has a document of that thread; and a
    document of the thread is always read back as a state, [from_dict]
    finding the [thread_id] it needs. *)
Theorem get_none_or_state_of_thread :
  forall (now : Z) (thread_id : string) (c : collection),
    (get fromisoformat rehydrate now thread_id c = Ok None
     <-> forall d : Document.t,
           d ∈ c -> Document.thread_id d ≠ Some thread_id)
    /\ (forall s : State.t,
          get fromisoformat rehydrate now thread_id c = Ok (Some s) ->
          State.thread_id s = thread_id
          /\ exists d : Document.t,
               d ∈ c /\ Document.thread_id d = Some thread_id)
    /\ (forall d : Document.t,
          d ∈ c -> Document.thread_id d = Some thread_id ->
          exists s : State.t,
            get fromisoformat rehydrate now thread_id c = Ok (Some s)).
Proof.
  intros now tid c.
  destruct (get_cases now tid c)
    as [[Hget Hnone]|(s & Hget & Hs & d & Hin & Hd)]; rewrite Hget.
  - split; [done|]. split; [done|].
    intros d Hin Hd. by destruct (Hnone d Hin).
  - split; [|split].
    + split; [done|]. intros Hnone. by destruct (Hnone d Hin).
    + intros s' [= <-]. split; [done|]. by exists d.
    + intros _ _ _. by exists s.
Qed.

(** X6. [save] files a state under the thread id of the state, not under
    its [thread_id] argument: saving under the id [a] a state of another
    thread leaves what [get] returns for [a] as it was. *)
Theorem save_under_another_thread_id :
  forall (now : Z) (a : string) (s : State.t) (c : collection),
    State.thread_id s ≠ a ->
    get fromisoformat rehydrate now a (save isoformat a s c)
    = get fromisoformat rehydrate now a c.
Proof.
  intros now a s c Hne. unfold get, save.
  rewrite find_one_last. cbn [to_dict Document.thread_id].
  rewrite bool_decide_eq_false_2; [done|]. congruence.
Qed.

Lemma find_all_last (thread_id : string) (d : Document.t) (c : collection) :
  find_all thread_id (insert_one d c)
  = if bool_decide (Document.thread_id d = Some thread_id)
    then d :: find_all thread_id c
    else find_all thread_id c.
Proof.
  unfold find_all, insert_one. rewrite rev_unit. cbn [List.filter].
  by destruct (bool_decide (Document.thread_id d = Some thread_id)).
Qed.

Lemma find_all_thread (thread_id : string) (c : collection) :
  Forall (fun d => Document.thread_id d = Some thread_id)
    (find_all thread_id c).
Proof.
  apply Forall_forall. intros d Hin.
  apply list_elem_of_In, filter_In in Hin as [_ Hd].
  by apply bool_decide_eq_true_1 in Hd.
Qed.

Lemma from_dict_all (now : Z) (thread_id : string) (ds : list Document.t) :
  Forall (fun d => Document.thread_id d = Some thread_id) ds ->
  exists l : list State.t,
    mapM (from_dict fromisoformat rehydrate now) ds = Ok l
    /\ length l = length ds
    /\ Forall (fun s => State.thread_id s = thread_id) l.
Proof.
  induction ds as [|d ds IH]; intros H.
  - exists []. by repeat split.
  - apply Forall_cons in H as [Hd H].
    destruct (IH H) as (l' & Hl' & Hlen & Hall).
    destruct (from_dict_thread now d thread_id Hd) as (s & Hs & Hthread).
    exists (s :: l'). cbn [mapM]. rewrite Hs. cbn [mbind result_bind].
    rewrite Hl'. split; [done|]. split; [simpl; by rewrite Hlen|].
    by apply Forall_cons.
Qed.

(** X7. The history only grows: when [get_all] for the thread of a state
    returned the list [earlier], then after [save] of the state it returns
    the state read back from its whole dictionary, followed by [earlier];
    and what [get_all] gives for any other thread is as before the
    [save]. *)
Theorem save_extends_history :
  forall (now : Z) (a : string) (s : State.t) (c : collection)
         (earlier : list State.t),
    get_all fromisoformat rehydrate now (State.thread_id s) c = Ok earlier ->
    (exists s0 : State.t,
        from_dict fromisoformat rehydrate now (to_dict isoformat s) = Ok s0
        /\ get_all fromisoformat rehydrate now (State.thread_id s)
             (save isoformat a s c)
           = Ok (s0 :: earlier))
    /\ forall other : string,
         other ≠ State.thread_id s ->
         get_all fromisoformat rehydrate now other (save isoformat a s c)
         = get_all fromisoformat rehydrate now other c.
Proof.
  intros now a s c earlier He.
  destruct (from_dict_thread now (to_dict isoformat s) (State.thread_id s)
              eq_refl) as (s0 & Hs0 & _).
  split; [exists s0; split; [done|]|].
  - unfold get_all, save in *. rewrite find_all_last.
    cbn [to_dict Document.thread_id]. rewrite bool_decide_eq_true_2 by done.
    cbn [mapM]. fold (to_dict isoformat s). rewrite Hs0.
    cbn [mbind result_bind]. by rewrite He.
  - intros other Hother. unfold get_all, save. rewrite find_all_last.
    cbn [to_dict Document.thread_id].
    rewrite bool_decide_eq_false_2; [done|]. congruence.
Qed.

Lemma find_head_filter {A : Type} (f : A -> bool) (l : list A) :
  List.find f l = head (List.filter f l).
Proof.
  induction l as [|x l IH]; [done|]. simpl. by destruct (f x).
Qed.

(** X8. [get] returns the newest state of [get_all] without the fields its
    projection leaves out: [get] is [None] exactly when [get_all] is empty,
    and otherwise the state of [get] and the first state of [get_all] have
    the same thread id, context, intent, parameter entries, extracted and
    missing parameters, [complete] and [current_node]. *)
Theorem get_is_newest_of_get_all :
  forall (now : Z) (thread_id : string) (c : collection),
    (get fromisoformat rehydrate now thread_id c = Ok None
     /\ get_all fromisoformat rehydrate now thread_id c = Ok [])
    \/ (exists (s s0 : State.t) (earlier : list State.t),
          get fromisoformat rehydrate now thread_id c = Ok (Some s)
          /\ get_all fromisoformat rehydrate now thread_id c
             = Ok (s0 :: earlier)
          /\ State.thread_id s = State.thread_id s0
          /\ State.context s = State.context s0
          /\ State.intent s = State.intent s0
          /\ State.parameters s = State.parameters s0
          /\ State.extracted_parameters s = State.extracted_parameters s0
          /\ State.missing_parameters s = State.missing_parameters s0
          /\ State.complete s = State.complete s0
          /\ State.current_node s = State.current_node s0).
Proof.
  intros now tid c.
  pose proof (find_all_thread tid c) as Hall.
  unfold get, find_one, get_all. rewrite find_head_filter.
  fold (find_all tid c).
  destruct (find_all tid c) as [|d ds]; [by left|right].
  apply Forall_cons in Hall as [Hd Hall].
  destruct (from_dict_all now tid ds Hall) as (l & Hl & _).
  cbn [head fmap option_fmap option_map mapM]. rewrite Hl.
  unfold from_dict. cbn [project Document.thread_id]. rewrite Hd.
  cbn [mbind result_bind].
  eexists _, _, _. split; [reflexivity|]. split; [reflexivity|].
  by repeat split.
Qed.
End MongoFacts.

Lemma save_under_another_thread_id_witness :
  State.thread_id Scenarios.other_thread ≠ "t1"
  /\ get Examples.fromisoformat Examples.rehydrate 5 "t1"
       (save Examples.isoformat "t1" Scenarios.other_thread
          Scenarios.one_turn)
     = get Examples.fromisoformat Examples.rehydrate 5 "t1"
         Scenarios.one_turn
  /\ exists s : State.t,
       get Examples.fromisoformat Examples.rehydrate 5 "t1"
         (save Examples.isoformat "t1" Scenarios.other_thread
            Scenarios.one_turn)
       = Ok (Some s)
       /\ State.intent s = Some {["id" := "book_flight"]}.
Proof.
  assert (H : State.thread_id Scenarios.other_thread ≠ "t1") by discriminate.
  split; [exact H|]. split.
  - exact (save_under_another_thread_id Examples.isoformat
             Examples.fromisoformat Examples.rehydrate 5 "t1"
             Scenarios.other_thread Scenarios.one_turn H).
  - rewrite (save_under_another_thread_id Examples.isoformat
               Examples.fromisoformat Examples.rehydrate 5 "t1"
               Scenarios.other_thread Scenarios.one_turn H).
    eexists. split; reflexivity.
Defined.

Lemma save_extends_history_witness :
  exists (earlier : list State.t) (s0 : State.t),
    get_all Examples.fromisoformat Examples.rehydrate 5
      (State.thread_id Examples.filling) Scenarios.one_turn
    = Ok earlier
    /\ length earlier = 1%nat
    /\ get_all Examples.fromisoformat Examples.rehydrate 5
         (State.thread_id Examples.filling)
         (save Examples.isoformat "t9" Examples.filling Scenarios.one_turn)
       = Ok (s0 :: earlier).
Proof.
  destruct (get_all Examples.fromisoformat Examples.rehydrate 5
              (State.thread_id Examples.filling) Scenarios.one_turn)
    as [earlier|e] eqn:H; [|by vm_compute in H].
  destruct (save_extends_history Examples.isoformat Examples.fromisoformat
              Examples.rehydrate 5 "t9" Examples.filling Scenarios.one_turn
              earlier H) as ((s0 & _ & Hs0) & _).
  exists earlier, s0. split; [reflexivity|]. split; [|exact Hs0].
  vm_compute in H. by injection H as <-.
Defined.

(** ** The catalog of intents *)

(** X9. The catalog built by [DialogueManager.__init__]: looking up an id
    gives the last intent of the list with that id, so every intent found
    under an id has that id and is one of the list, and every id of the list
    is found. *)
Theorem catalog_lookup :
  forall (intents : list IntentModel.t) (fallback_intent_id : string)
         (threshold : float),
    let self :=
      DialogueManager__init__ intents fallback_intent_id threshold in
    (forall k : string,
        _get_intent self k
        = last (List.filter
                  (fun i => bool_decide (IntentModel.intent_id i = k))
                  intents))
    /\ (forall (k : string) (i : IntentModel.t),
          _get_intent self k = Some i ->
          IntentModel.intent_id i = k /\ i ∈ intents)
    /\ (forall i : IntentModel.t,
          i ∈ intents -> is_Some (_get_intent self (IntentModel.intent_id i))).
Proof.
  intros intents fb thr self.
  assert (Hlast : forall k : string,
    _get_intent self k
    = last (List.filter
              (fun i => bool_decide (IntentModel.intent_id i = k)) intents)).
  { intros k. subst self. unfold _get_intent, DialogueManager__init__.
    cbn [DialogueManager.intents].
    induction intents as [|x l IH] using rev_ind; [done|].
    rewrite foldl_app, List.filter_app. cbn [foldl List.filter].
    destruct (decide (IntentModel.intent_id x = k)) as [<-|Hne].
    - rewrite bool_decide_eq_true_2 by done.
      by rewrite lookup_insert_eq, last_snoc.
    - rewrite bool_decide_eq_false_2 by done.
      by rewrite lookup_insert_ne, app_nil_r. }
  split; [exact Hlast|]. split.
  - intros k i Hi. rewrite Hlast in Hi.
    apply last_Some_elem_of, list_elem_of_In, filter_In in Hi as [Hin Hk].
    apply bool_decide_eq_true_1 in Hk. split; [done|].
    by apply list_elem_of_In.
  - intros i Hin. rewrite Hlast.
    destruct (last _) eqn:Hl; [by eexists|].
    apply last_None in Hl.
    assert (Hi : In i (List.filter
                         (fun j => bool_decide (IntentModel.intent_id j
                                                = IntentModel.intent_id i))
                         intents)).
    { apply filter_In. split; [by apply list_elem_of_In|].
      by apply bool_decide_eq_true_2. }
    rewrite Hl in Hi. destruct Hi.
Qed.

(** ** What the phases of a turn leave alone *)

Lemma fill_parameter_result (p : ParameterModel.t) (s : State.t)
    (ebt : gmap string (list string)) :
  (exists (ex' : gmap string string) (ebt' : gmap string (list string)),
      fill_parameter p (s, ebt)
      = Ok (State.set_extracted_parameters ex' s, ebt')
      /\ dom (State.extracted_parameters s) ⊆ dom ex')
  \/ (fill_parameter p (s, ebt) = Raise AttributeError
      /\ State.user_message s = None).
Proof.
  unfold fill_parameter. destruct (_ && _).
  - destruct (State.user_message s); [left|by right].
    eexists _, _. split; [reflexivity|]. set_solver.
  - left. destruct (ebt !! ParameterModel.type p) as [[|v rest]|].
    + exists (State.extracted_parameters s), ebt. by destruct s.
    + eexists _, _. split; [reflexivity|]. set_solver.
    + exists (State.extracted_parameters s), ebt. by destruct s.
Qed.

Lemma fill_parameters_result (ps : list ParameterModel.t) (s : State.t)
    (ebt : gmap string (list string)) :
  (exists (ex' : gmap string string) (ebt' : gmap string (list string)),
      fill_parameters ps (s, ebt)
      = Ok (State.set_extracted_parameters ex' s, ebt')
      /\ dom (State.extracted_parameters s) ⊆ dom ex')
  \/ (fill_parameters ps (s, ebt) = Raise AttributeError
      /\ State.user_message s = None).
Proof.
  revert s ebt. induction ps as [|p ps IH]; intros s ebt.
  - left. exists (State.extracted_parameters s), ebt. by destruct s.
  - cbn [fill_parameters].
    destruct (fill_parameter_result p s ebt)
      as [(ex1 & ebt1 & -> & Hsub1)|[-> Hum]]; [|by right].
    cbn [mbind result_bind].
    destruct (IH (State.set_extracted_parameters ex1 s) ebt1)
      as [(ex2 & ebt2 & -> & Hsub2)|[-> Hum]]; [left|by right].
    exists ex2, ebt2. split; [done|]. simpl in Hsub2. set_solver.
Qed.

Lemma handle_missing_parameters_frame (l : list ParameterModel.t)
    (s : State.t) :
  let s' := _handle_missing_parameters l s in
  State.user_message s' = State.user_message s
  /\ State.date s' = State.date s
  /\ State.nlu s' = State.nlu s
  /\ State.context s' = State.context s
  /\ State.thread_id s' = State.thread_id s
  /\ State.intent s' = State.intent s
  /\ State.extracted_parameters s' = State.extracted_parameters s.
Proof.
  unfold _handle_missing_parameters. simpl.
  destruct (List.filter _ l); by repeat split.
Qed.

(** The extraction pass and the missing-parameter pass together. *)
Lemma fill_and_handle_result (l : list ParameterModel.t) (s : State.t)
    (ebt : gmap string (list string)) :
  let entered :=
    match State.parameters s with
    | [] => snapshot_parameters l s
    | _ :: _ => s
    end in
  let passes :=
    '(current_state, _) ← fill_parameters l (entered, ebt);
    Ok (_handle_missing_parameters l current_state) in
  (exists s' : State.t,
      passes = Ok s'
      /\ State.user_message s' = State.user_message s
      /\ State.date s' = State.date s
      /\ State.nlu s' = State.nlu s
      /\ State.context s' = State.context s
      /\ State.thread_id s' = State.thread_id s
      /\ State.intent s' = State.intent s
      /\ dom (State.extracted_parameters s)
         ⊆ dom (State.extracted_parameters s'))
  \/ passes = Raise AttributeError.
Proof.
  intros entered passes. subst passes.
  assert (Hentered : exists x, entered = State.set_parameters x s).
  { subst entered. destruct (State.parameters s) eqn:Hsp.
    - rewrite snapshot_parameters_eq. by eexists.
    - exists (State.parameters s). by rewrite set_parameters_eta. }
  destruct Hentered as [x ->].
  destruct (fill_parameters_result l (State.set_parameters x s) ebt)
    as [(ex' & ebt' & -> & Hsub)|[-> _]]; [left|by right].
  cbn [mbind result_bind].
  pose proof (handle_missing_parameters_frame l
                (State.set_extracted_parameters ex'
                   (State.set_parameters x s)))
    as (Hum & Hdate & Hnlu & Hctx & Htid & Hint & Hex).
  eexists. split; [reflexivity|].
  rewrite Hum, Hdate, Hnlu, Hctx, Htid, Hint, Hex.
  by repeat split.
Qed.

(** A call of [_process_intent] either raises [AttributeError] or returns
    the query intent (on a cancellation) or the active intent, with a state
    that differs from the one on entry only in the reply, the parameter
    entries, the extracted and missing parameters, the prompted slot and
    [complete]. *)
Lemma process_intent_result (q a : IntentModel.t) (s : State.t) :
  (exists s' : State.t,
      _process_intent q a s
      = Ok (s', if bool_decide (IntentModel.intent_id q = "cancel")
                then q else a)
      /\ State.user_message s' = State.user_message s
      /\ State.date s' = State.date s
      /\ State.nlu s' = State.nlu s
      /\ State.context s' = State.context s
      /\ State.thread_id s' = State.thread_id s
      /\ State.intent s' = State.intent s
      /\ complete_invariant s'
      /\ (IntentModel.intent_id q ≠ "cancel" ->
          dom (State.extracted_parameters s)
          ⊆ dom (State.extracted_parameters s')))
  \/ _process_intent q a s = Raise AttributeError.
Proof.
  unfold _process_intent.
  destruct (bool_decide (IntentModel.intent_id q = "cancel")) eqn:Hq.
  { left. eexists. split; [reflexivity|]. repeat split; try done.
    intros Hne. by apply bool_decide_eq_true_1 in Hq. }
  destruct (IntentModel.parameters a) as [|p ps] eqn:Hps.
  { left. eexists. split; [reflexivity|]. simpl.
    split; [done|]. do 5 (split; [done|]). split; [|done].
    by apply no_missing_complete. }
  assert (Hents : (exists ents,
                      match Nlu.entities (State.nlu s) with
                      | None => Ok ∅
                      | Some None => Raise AttributeError
                      | Some (Some entities) => Ok entities
                      end = Ok ents)
                  \/ match Nlu.entities (State.nlu s) with
                     | None => Ok ∅
                     | Some None => Raise AttributeError
                     | Some (Some entities) => Ok entities
                     end = Raise AttributeError).
  { destruct (Nlu.entities (State.nlu s)) as [[ents|]|]; eauto. }
  destruct Hents as [[ents ->]| ->]; [|by right].
  cbn [mbind result_bind].
  destruct (fill_and_handle_result (p :: ps) s (group_entities ents))
    as [(s2 & Hs2 & Hum & Hdate & Hnlu & Hctx & Htid & Hint & Hsub)|Hraise].
  - left. cbn zeta in Hs2. rewrite Hs2. cbn [mbind result_bind].
    eexists. split; [reflexivity|]. simpl.
    do 6 (split; [done|]). split; [|done].
    by apply no_missing_complete.
  - right. cbn zeta in Hraise. by rewrite Hraise.
Qed.

Lemma segments_nonempty (rendered_text : string) :
  exists (seg : Segment.t) (segs : list Segment.t),
    segments rendered_text = seg :: segs.
Proof.
  unfold segments, split_sentence, split.
  destruct (split_go_join "#" "##" (String.length rendered_text)
              rendered_text EmptyString (le_n _)) as [Hne _].
  destruct (split_go "###" 0 EmptyString rendered_text); [done|].
  by eexists _, _.
Qed.

Section ResponseFacts.
Variable Json : Type.
Variable render :
  string -> gmap string string -> gmap string string -> option Json ->
  result string.
Variable json_loads : string -> result Json.
Variable call_api :
  string -> string -> list (string * string) -> api_parameters Json -> bool ->
  result Json.

(** The response phase writes the reply and nothing else, and the reply has
    at least one segment. *)
Lemma handle_api_trigger_frame (intent : IntentModel.t) (s s' : State.t) :
  _handle_api_trigger Json render json_loads call_api intent s = Ok s' ->
  exists (seg : Segment.t) (segs : list Segment.t),
    s' = State.set_bot_message (Some (seg :: segs)) s.
Proof.
  unfold _handle_api_trigger. destruct (_ && _).
  - destruct (_call_intent_api _ _ _ _ _ _) as [r|e];
      cbn [mbind result_bind].
    + destruct (render _ _ _ _) as [t|e]; cbn [mbind result_bind].
      * intros [= <-]. destruct (segments_nonempty t) as (seg & segs & ->).
        by eexists _, _.
      * destruct e; intros [= <-]. by eexists _, _.
    + destruct e; intros [= <-]. by eexists _, _.
  - destruct (render _ _ _ _) as [t|e]; cbn [mbind result_bind]; [|done].
    intros [= <-]. destruct (segments_nonempty t) as (seg & segs & ->).
    by eexists _, _.
Qed.

(** The response phase raises no [DialogueManagerException] unless the
    renderer does. *)
Lemma handle_api_trigger_raise (intent : IntentModel.t) (s : State.t)
    (msg : string) :
  _handle_api_trigger Json render json_loads call_api intent s
  = Raise (DialogueManagerException msg) ->
  render (IntentModel.speech_response intent) (State.context s)
    (State.extracted_parameters s) None
  = Raise (DialogueManagerException msg).
Proof.
  unfold _handle_api_trigger. destruct (_ && _).
  - destruct (_call_intent_api _ _ _ _ _ _) as [r|e];
      cbn [mbind result_bind].
    + destruct (render _ _ _ (Some r)) as [t|e]; cbn [mbind result_bind];
        [done|by destruct e].
    + by destruct e.
  - destruct (render _ _ _ _) as [t|e]; cbn [mbind result_bind]; [done|].
    by intros [= ->].
Qed.
End ResponseFacts.

(** ** [DialogueManager.process] *)

(** One step of a computation that returned: the first call returned too. *)
Ltac step H x Hx :=
  match type of H with
  | mbind _ ?r = Ok _ =>
      destruct r as [x|?] eqn:Hx; cbn [mbind result_bind] in H; [|done]
  end.

(** One step of a computation that raised: either the first call raised it,
    or it returned. *)
Ltac rstep H x Hx :=
  match type of H with
  | mbind _ ?r = Raise _ =>
      destruct r as [x|?] eqn:Hx; cbn [mbind result_bind] in H;
      [|injection H as ->]
  end.

Lemma update_sets_message (now : Z) (message : UserMessage.t) (s : State.t) :
  State.user_message (State.update now message s) = Some message.
Proof.
  unfold State.update. destruct (UserMessage.context message); simpl;
    destruct (State.complete s); reflexivity.
Qed.

Lemma update_frame (now : Z) (message : UserMessage.t) (s : State.t) :
  State.date (State.update now message s) = now
  /\ State.thread_id (State.update now message s) = State.thread_id s
  /\ State.nlu (State.update now message s) = State.nlu s.
Proof.
  unfold State.update. destruct (UserMessage.context message); simpl;
    destruct (State.complete s); by repeat split.
Qed.

Section ProcessFacts.
Variable Json : Type.
Variable render :
  string -> gmap string string -> gmap string string -> option Json ->
  result string.
Variable json_loads : string -> result Json.
Variable call_api :
  string -> string -> list (string * string) -> api_parameters Json -> bool ->
  result Json.
Variable Store : Type.
Variable memory_saver_get : string -> Store -> result (option State.t).
Variable memory_saver_init_state : string -> Store -> result (State.t * Store).
Variable memory_saver_save : string -> State.t -> Store -> result Store.
Variable nlu_pipeline : option (string -> result Nlu.t).
Variable now : Z.

(** The stages of a call of [process] that returned. *)
Lemma process_returned (self : DialogueManager.t) (message : UserMessage.t)
    (store : Store) (s' : State.t) (store' : Store) :
  process Json render json_loads call_api Store memory_saver_get
      memory_saver_init_state memory_saver_save nlu_pipeline now
      self message store = Ok (s', store') ->
  exists (pipeline : string -> result Nlu.t) (found : option State.t)
         (s0 : State.t) (store1 : Store) (nlu_result : Nlu.t)
         (qid : string) (conf : float) (q : IntentModel.t)
         (s2 : State.t) (a2 : IntentModel.t),
    let s1 :=
      State.set_nlu (nlu_of_result nlu_result)
        (State.update now message s0) in
    let s3 :=
      State.set_intent (Some {["id" := IntentModel.intent_id a2]}) s2 in
    nlu_pipeline = Some pipeline
    /\ memory_saver_get (UserMessage.thread_id message) store = Ok found
    /\ match found with
       | Some current_state => Ok (current_state, store)
       | None =>
           memory_saver_init_state (UserMessage.thread_id message) store
       end = Ok (s0, store1)
    /\ pipeline (UserMessage.text message) = Ok nlu_result
    /\ _get_intent_id_and_confidence self (State.update now message s0)
         nlu_result = Ok (qid, conf)
    /\ match _get_intent self qid with
       | Some intent => Ok intent
       | None => _get_fallback_intent self
       end = Ok q
    /\ match
         (if truthy (get_active_intent_id s1)
             && negb (bool_decide (Some qid = get_active_intent_id s1))
          then get_active_intent_id s1 ≫= _get_intent self
          else Some q)
       with
       | Some active_intent => _process_intent q active_intent s1
       | None =>
           if bool_decide (IntentModel.intent_id q = "cancel")
           then _process_intent q q s1
           else Raise AttributeError
       end = Ok (s2, a2)
    /\ (if State.complete s3
        then _handle_api_trigger Json render json_loads call_api a2 s3
        else Ok s3) = Ok s'
    /\ memory_saver_save (UserMessage.thread_id message) s' store1
       = Ok store'.
Proof.
  intros H. unfold process in H.
  destruct nlu_pipeline as [pipeline|] eqn:Hpipe; [|done].
  step H found Hget.
  step H loaded Hload. destruct loaded as [s0 store1].
  rewrite update_sets_message in H. cbn [mbind result_bind] in H.
  step H nlu_result Hnlu.
  step H resolved Hresolved. destruct resolved as [qid conf].
  step H q Hq.
  step H processed Hprocessed. destruct processed as [s2 a2].
  step H s3 Hresponse.
  step H store2 Hsave.
  injection H as <- <-.
  exists pipeline, found, s0, store1, nlu_result, qid, conf, q, s2, a2.
  by repeat split.
Qed.

(** The intent a call of [_process_intent] returns is one of its two
    intents. *)
Lemma process_intent_active (q a : IntentModel.t) (s s' : State.t)
    (a' : IntentModel.t) :
  _process_intent q a s = Ok (s', a') ->
  a' = (if bool_decide (IntentModel.intent_id q = "cancel") then q else a)
  /\ State.user_message s' = State.user_message s
  /\ State.date s' = State.date s
  /\ State.nlu s' = State.nlu s
  /\ State.context s' = State.context s
  /\ State.thread_id s' = State.thread_id s
  /\ complete_invariant s'.
Proof.
  intros H.
  destruct (process_intent_result q a s)
    as [(s2 & Hs2 & Hum & Hdate & Hnlu & Hctx & Htid & _ & Hc & _)|Hraise];
    [|by rewrite Hraise in H].
  rewrite Hs2 in H. injection H as <- <-.
  repeat (split; [done|]). exact Hc.
Qed.



Lemma get_intent_id_raise (self : DialogueManager.t) (s : State.t)
    (nlu_result : Nlu.t) (msg : string) :
  _get_intent_id_and_confidence self s nlu_result
  ≠ Raise (DialogueManagerException msg).
Proof.
  unfold _get_intent_id_and_confidence.
  destruct (State.user_message s) as [um|]; [|done].
  destruct (startswith "/" (UserMessage.text um)).
  - by destruct (split "/" (UserMessage.text um) !! 1%nat).
  - destruct (Nlu.intent nlu_result) as [[p|]|]; [|done..].
    by destruct (PrimFloat.ltb _ _).
Qed.

(** X10. The one [DialogueManagerException] of a turn: when none of the
    collaborators (memory saver, NLU pipeline, renderer) raises a
    [DialogueManagerException] of its own, [process] raises one only when
    the NLU pipeline is missing, with the text that says so.  A failure of
    the API never leaves [process] as a [DialogueManagerException]. *)
Theorem process_raises_only_pipeline_not_ready :
  (forall (tid : string) (st : Store) (msg : string),
      memory_saver_get tid st ≠ Raise (DialogueManagerException msg)) ->
  (forall (tid : string) (st : Store) (msg : string),
      memory_saver_init_state tid st
      ≠ Raise (DialogueManagerException msg)) ->
  (forall (tid : string) (s : State.t) (st : Store) (msg : string),
      memory_saver_save tid s st ≠ Raise (DialogueManagerException msg)) ->
  (forall (pipeline : string -> result Nlu.t) (text msg : string),
      nlu_pipeline = Some pipeline ->
      pipeline text ≠ Raise (DialogueManagerException msg)) ->
  (forall (template : string) (context parameters : gmap string string)
          (api_result : option Json) (msg : string),
      render template context parameters api_result
      ≠ Raise (DialogueManagerException msg)) ->
  forall (self : DialogueManager.t) (message : UserMessage.t)
         (store : Store) (msg : string),
    process Json render json_loads call_api Store memory_saver_get
      memory_saver_init_state memory_saver_save nlu_pipeline now
      self message store = Raise (DialogueManagerException msg) ->
    nlu_pipeline = None /\ msg = pipeline_not_ready.
Proof.
  intros Hget Hinit Hsave Hnlu Hrender self message store msg H.
  unfold process in H.
  destruct nlu_pipeline as [pipeline|] eqn:Hpipe;
    [exfalso|by injection H as <-].
  specialize (Hnlu pipeline).
  rstep H found Hfound; [|exact (Hget _ _ _ Hfound)].
  rstep H loaded Hloaded.
  2:{ destruct found; [done|]. exact (Hinit _ _ _ Hloaded). }
  destruct loaded as [s0 store1].
  rewrite update_sets_message in H. cbn [mbind result_bind] in H.
  rstep H nlu_result Hresult; [|exact (Hnlu _ _ eq_refl Hresult)].
  rstep H resolved Hresolved; [|exact (get_intent_id_raise _ _ _ _ Hresolved)].
  destruct resolved as [qid conf].
  rstep H q Hq.
  2:{ destruct (_get_intent self qid); [done|]. unfold _get_fallback_intent in Hq.
      by destruct (DialogueManager.intents self !! _). }
  rstep H processed Hprocessed.
  2:{ destruct (if truthy _ && _ then _ else _) as [a|].
      - destruct (process_intent_result q a
                    (State.set_nlu (nlu_of_result nlu_result)
                       (State.update now message s0)))
          as [(s2 & Hs2 & _)|Hraise]; congruence.
      - destruct (bool_decide _); [|done].
        destruct (process_intent_result q q
                    (State.set_nlu (nlu_of_result nlu_result)
                       (State.update now message s0)))
          as [(s2 & Hs2 & _)|Hraise]; congruence. }
  destruct processed as [s2 a2].
  rstep H s3 Hresponse.
  2:{ destruct (State.complete _); [|done].
      apply handle_api_trigger_raise in Hresponse.
      exact (Hrender _ _ _ _ _ Hresponse). }
  rstep H store2 Hstore; [done|exact (Hsave _ _ _ _ Hstore)].
Qed.



(** X14. Neither the resolved id nor the fallback id in the catalog: when
    the state was loaded by the memory saver, or started by it for a thread
    it has no state of, and the pipeline and the intent resolution have
    answered, and the catalog has no intent of the resolved id nor of the
    fallback id, then [process] raises [KeyError]. *)
Theorem process_without_fallback_intent :
  forall (self : DialogueManager.t) (message : UserMessage.t)
         (store : Store) (pipeline : string -> result Nlu.t)
         (s0 : State.t) (nlu_result : Nlu.t) (qid : string) (conf : float),
    nlu_pipeline = Some pipeline ->
    (memory_saver_get (UserMessage.thread_id message) store = Ok (Some s0)
     \/ (memory_saver_get (UserMessage.thread_id message) store = Ok None
         /\ exists store1 : Store,
              memory_saver_init_state (UserMessage.thread_id message) store
              = Ok (s0, store1))) ->
    pipeline (UserMessage.text message) = Ok nlu_result ->
    _get_intent_id_and_confidence self (State.update now message s0)
      nlu_result = Ok (qid, conf) ->
    _get_intent self qid = None ->
    _get_intent self (DialogueManager.fallback_intent_id self) = None ->
    process Json render json_loads call_api Store memory_saver_get
      memory_saver_init_state memory_saver_save nlu_pipeline now
      self message store = Raise KeyError.
Proof.
  intros self message store pipeline s0 nlu_result qid conf Hpipe Hload Hnlu
    Hresolved Hq Hfallback.
  unfold process. rewrite Hpipe.
  destruct Hload as [Hget|(Hget & store1 & Hinit)]; rewrite Hget;
    cbn [mbind result_bind]; [|rewrite Hinit; cbn [mbind result_bind]].
  all: rewrite update_sets_message; cbn [mbind result_bind].
  all: rewrite Hnlu; cbn [mbind result_bind].
  all: rewrite Hresolved; cbn [mbind result_bind].
  all: rewrite Hq; unfold _get_fallback_intent.
  all: unfold _get_intent in Hfallback; by rewrite Hfallback.
Qed.
End ProcessFacts.


Lemma process_raises_only_pipeline_not_ready_witness :
  exists msg : string,
    process string Examples.plain_render Examples.text_loads
      Examples.api_down (list State.t) Scenarios.memory_get
      Scenarios.memory_init_state Scenarios.memory_save None 7
      Scenarios.manager Examples.from_boston []
    = Raise (DialogueManagerException msg)
    /\ msg = "NLU pipeline is not initialized. Please build the models.".
Proof.
  eexists. split; [reflexivity|].
  by apply (process_raises_only_pipeline_not_ready string
              Examples.plain_render Examples.text_loads Examples.api_down
              (list State.t) Scenarios.memory_get
              Scenarios.memory_init_state Scenarios.memory_save None 7
              ltac:(done) ltac:(done) ltac:(done) ltac:(done) ltac:(done)
              Scenarios.manager Examples.from_boston []).
Defined.



Lemma process_without_fallback_intent_witness :
  _get_intent Examples.manager "fallback" = None
  /\ process string Examples.plain_render Examples.text_loads
       Examples.api_down (list State.t) Scenarios.memory_get
       Scenarios.memory_init_state Scenarios.memory_save
       (Some Scenarios.doubtful) 7 Examples.manager Examples.from_boston []
     = Raise KeyError.
Proof.
  split; [reflexivity|].
  apply (process_without_fallback_intent string Examples.plain_render
              Examples.text_loads Examples.api_down (list State.t)
              Scenarios.memory_get Scenarios.memory_init_state
              Scenarios.memory_save (Some Scenarios.doubtful) 7
              Examples.manager Examples.from_boston []
              Scenarios.doubtful Examples.fresh Examples.unsure
              "fallback" 1%float);
    [reflexivity| |reflexivity|vm_compute; reflexivity|reflexivity
    |reflexivity].
  right. split; [reflexivity|]. by exists [].
Defined.

(** ** [call_api] *)

Section CallApiFacts.
Variable Json : Type.
Variable session_request :
  string -> string -> list (string * string) -> request_payload Json -> Z ->
  response Json + transport_error.
Variable DEFAULT_TIMEOUT : Z.
Variable json_or_empty : Json -> Json.


Lemma send_raised (verb url : string) (headers : list (string * string))
    (payload : request_payload Json) (timeout : Z) (e : exn) :
  send Json session_request verb url headers payload timeout
  = inr (Unexpected e) ->
  session_request verb url headers payload timeout = inr (Unexpected e)
  \/ exists response : response Json,
       session_request verb url headers payload timeout = inl response
       /\ response_json response = inr (Unexpected e).
Proof.
  unfold send.
  destruct (session_request verb url headers payload timeout)
    as [response|e']; [|intros [= ->]; by left].
  destruct (response_json response) as [body|e'] eqn:Hbody.
  - by destruct (raise_for_status response).
  - intros [= ->]. right. by exists response.
Qed.

(** The request [call_api] sends for a request method it knows. *)
Lemma call_api_attempt (url method : string)
    (headers : list (string * string)) (parameters : api_parameters Json)
    (is_json : bool) (timeout : option Z) :
  upper method ∈ ["GET"; "POST"; "PUT"; "DELETE"] ->
  exists (verb : string) (payload : request_payload Json),
    (verb, upper method)
      ∈ [("get", "GET"); ("post", "POST"); ("put", "PUT");
         ("delete", "DELETE")]
    /\ (payload = Params (parameters_or_empty Json json_or_empty parameters)
        \/ (payload
            = JsonData (parameters_or_empty Json json_or_empty parameters)
            /\ is_json = true /\ verb ∈ ["post"; "put"]))
    /\ http_call_api Json session_request DEFAULT_TIMEOUT json_or_empty url
         method headers parameters is_json timeout
       = match send Json session_request verb url headers payload
                 (default DEFAULT_TIMEOUT timeout) with
         | inl result => Ok result
         | inr (ClientError msg) =>
             Raise (APICallExcetion ("HTTP error occurred: " +:+ msg))
         | inr TimeoutError =>
             Raise (APICallExcetion
                      ("Request timed out after "
                       +:+ pretty.pretty (default DEFAULT_TIMEOUT timeout)
                       +:+ " seconds"))
         | inr (Unexpected e) => Raise e
         end.
Proof.
  intros Hmethod. unfold http_call_api.
  repeat (apply elem_of_cons in Hmethod as [->|Hmethod]);
    [..|by apply elem_of_nil in Hmethod].
  - exists "get", (Params (parameters_or_empty Json json_or_empty parameters)).
    split; [set_solver|]. split; [by left|reflexivity].
  - exists "post",
      (if is_json
       then JsonData (parameters_or_empty Json json_or_empty parameters)
       else Params (parameters_or_empty Json json_or_empty parameters)).
    split; [set_solver|]. split; [|reflexivity].
    destruct is_json; [right|by left]. repeat split. set_solver.
  - exists "put",
      (if is_json
       then JsonData (parameters_or_empty Json json_or_empty parameters)
       else Params (parameters_or_empty Json json_or_empty parameters)).
    split; [set_solver|]. split; [|reflexivity].
    destruct is_json; [right|by left]. repeat split. set_solver.
  - exists "delete",
      (Params (parameters_or_empty Json json_or_empty parameters)).
    split; [set_solver|]. split; [by left|reflexivity].
Qed.

(** What [call_api] does with a request method it does not know. *)
Lemma call_api_unsupported (url method : string)
    (headers : list (string * string)) (parameters : api_parameters Json)
    (is_json : bool) (timeout : option Z) :
  upper method ∉ ["GET"; "POST"; "PUT"; "DELETE"] ->
  http_call_api Json session_request DEFAULT_TIMEOUT json_or_empty url
    method headers parameters is_json timeout
  = Raise (ValueError ("Unsupported request method: " +:+ upper method)).
Proof.
  intros Hmethod. unfold http_call_api.
  rewrite !not_elem_of_cons in Hmethod.
  destruct Hmethod as (Hget & Hpost & Hput & Hdelete & _).
  rewrite !bool_decide_eq_false_2; [done|done| |done].
  intros Hin. rewrite !elem_of_cons, elem_of_nil in Hin.
  by destruct Hin as [?|[?|[]]].
Qed.


(** X16. What [call_api] raises for an ASCII request method: its
    [APICallExcetion] with the text "HTTP error occurred: ..." (for an
    [aiohttp.ClientError], which an error status of the response is), the
    same exception with the text "Request timed out after N seconds", where
    N is the timeout of the call or the default one, a [ValueError] for a
    request method that is none of GET, POST, PUT and DELETE, or whatever
    else the session or the parsing of the body raised, unchanged. *)
Theorem call_api_raises :
  forall (url method : string) (headers : list (string * string))
         (parameters : api_parameters Json) (is_json : bool)
         (timeout : option Z) (e : exn),
    isascii method = true ->
    http_call_api Json session_request DEFAULT_TIMEOUT json_or_empty url
      method headers parameters is_json timeout = Raise e ->
    (exists msg : string,
        e = APICallExcetion ("HTTP error occurred: " +:+ msg))
    \/ e = APICallExcetion
             ("Request timed out after "
              +:+ pretty.pretty (default DEFAULT_TIMEOUT timeout)
              +:+ " seconds")
    \/ ((upper method ∉ ["GET"; "POST"; "PUT"; "DELETE"])
        /\ e = ValueError ("Unsupported request method: " +:+ upper method))
    \/ (exists (verb : string) (payload : request_payload Json),
          session_request verb url headers payload
            (default DEFAULT_TIMEOUT timeout) = inr (Unexpected e)
          \/ exists response : response Json,
               session_request verb url headers payload
                 (default DEFAULT_TIMEOUT timeout) = inl response
               /\ response_json response = inr (Unexpected e)).
Proof.
  intros url method headers parameters is_json timeout e _ H.
  destruct (decide (upper method ∈ ["GET"; "POST"; "PUT"; "DELETE"]))
    as [Hmethod|Hmethod].
  - destruct (call_api_attempt url method headers parameters is_json timeout
                Hmethod) as (verb & payload & _ & _ & Hcall).
    rewrite Hcall in H.
    destruct (send Json session_request verb url headers payload
                (default DEFAULT_TIMEOUT timeout))
      as [body|[msg| |e']] eqn:Hsend; [done|..].
    + injection H as <-. left. by exists msg.
    + injection H as <-. right. by left.
    + injection H as ->. do 3 right. exists verb, payload.
      by apply send_raised.
  - rewrite call_api_unsupported in H by done. injection H as <-.
    right. right. left. by split.
Qed.
End CallApiFacts.

(** ** The API of an intent over HTTP *)

Section ApiOverHttp.
Variable Json : Type.
Variable render :
  string -> gmap string string -> gmap string string -> option Json ->
  result string.
Variable json_loads : string -> result Json.
Variable session_request :
  string -> string -> list (string * string) -> request_payload Json -> Z ->
  response Json + transport_error.
Variable DEFAULT_TIMEOUT : Z.
Variable json_or_empty : Json -> Json.

(** X17. An API that cannot be reached gives the fallback reply: for an
    intent with [api_trigger] whose API details have one of the request
    methods GET, POST, PUT and DELETE (in ASCII letters of any case), when
    every request to the rendered URL fails with an [aiohttp.ClientError],
    an error status or a timeout, [_handle_api_trigger], with [call_api] as
    the invoker, raises nothing and returns a state whose [bot_message] is
    the one segment "Service is not available. Please try again later.";
    every other field of the state is as it was. *)
Theorem api_trigger_transport_failure :
  forall (intent : IntentModel.t) (d : ApiDetails.t) (s : State.t)
         (rendered_url : string) (parameters : api_parameters Json),
    IntentModel.api_trigger intent = true ->
    IntentModel.api_details intent = Some d ->
    prepared Json render json_loads d s rendered_url parameters ->
    isascii (ApiDetails.request_type d) = true ->
    upper (ApiDetails.request_type d) ∈ ["GET"; "POST"; "PUT"; "DELETE"] ->
    (forall (verb : string) (payload : request_payload Json),
        failed Json
          (send Json session_request verb rendered_url
             (ApiDetails.get_headers d) payload DEFAULT_TIMEOUT)) ->
    exists s' : State.t,
      _handle_api_trigger Json render json_loads
        (call_api_of_intent Json session_request DEFAULT_TIMEOUT
           json_or_empty)
        intent s
      = Ok s'
      /\ State.bot_message s'
         = Some [Segment.mk
                   "Service is not available. Please try again later."]
      /\ State.thread_id s' = State.thread_id s
      /\ State.user_message s' = State.user_message s
      /\ State.nlu s' = State.nlu s
      /\ State.context s' = State.context s
      /\ State.intent s' = State.intent s
      /\ State.parameters s' = State.parameters s
      /\ State.extracted_parameters s' = State.extracted_parameters s
      /\ State.missing_parameters s' = State.missing_parameters s
      /\ State.complete s' = State.complete s
      /\ State.current_node s' = State.current_node s
      /\ State.date s' = State.date s.
Proof.
  intros intent d s url parameters Htrigger Hd Hprepared _ Hmethod Hfailed.
  unfold _handle_api_trigger.
  rewrite Htrigger, Hd, bool_decide_eq_true_2 by done. cbn [andb].
  rewrite (call_intent_api_prepared Json render json_loads _ intent d s url
             parameters Hd Hprepared).
  unfold call_api_of_intent.
  destruct (call_api_attempt Json session_request DEFAULT_TIMEOUT
              json_or_empty url (ApiDetails.request_type d)
              (ApiDetails.get_headers d) parameters (ApiDetails.is_json d)
              None Hmethod) as (verb & payload & _ & _ & ->).
  specialize (Hfailed verb payload). cbn [default] in *.
  destruct (send Json session_request verb url (ApiDetails.get_headers d)
              payload DEFAULT_TIMEOUT) as [body|[msg| |e]]; [done| | |done].
  all: eexists; split; [reflexivity|]; by repeat split.
Qed.

(** X18. A request method [call_api] does not know is no failure of the
    API: for an intent with [api_trigger] whose API details have an ASCII
    request method that is none of GET, POST, PUT and DELETE,
    [_handle_api_trigger], with [call_api] as the invoker, raises the
    [ValueError] of [call_api]; no fallback reply is given. *)
Theorem api_trigger_unsupported_method :
  forall (intent : IntentModel.t) (d : ApiDetails.t) (s : State.t)
         (rendered_url : string) (parameters : api_parameters Json),
    IntentModel.api_trigger intent = true ->
    IntentModel.api_details intent = Some d ->
    prepared Json render json_loads d s rendered_url parameters ->
    isascii (ApiDetails.request_type d) = true ->
    upper (ApiDetails.request_type d) ∉ ["GET"; "POST"; "PUT"; "DELETE"] ->
    _handle_api_trigger Json render json_loads
      (call_api_of_intent Json session_request DEFAULT_TIMEOUT json_or_empty)
      intent s
    = Raise (ValueError ("Unsupported request method: "
                         +:+ upper (ApiDetails.request_type d))).
Proof.
  intros intent d s url parameters Htrigger Hd Hprepared _ Hmethod.
  unfold _handle_api_trigger.
  rewrite Htrigger, Hd, bool_decide_eq_true_2 by done. cbn [andb].
  rewrite (call_intent_api_prepared Json render json_loads _ intent d s url
             parameters Hd Hprepared).
  unfold call_api_of_intent.
  by rewrite call_api_unsupported.
Qed.
End ApiOverHttp.


Lemma call_api_raises_witness :
  isascii "GET" = true
  /\ http_call_api string Scenarios.refusing 30 Scenarios.keep
       "https://bank.example/balance" "GET" [] (ExtractedParameters ∅)
       false (Some 5%Z)
     = Raise (APICallExcetion
                "HTTP error occurred: 500, message='Internal Server Error'")
  /\ ((exists msg : string,
          APICallExcetion
            "HTTP error occurred: 500, message='Internal Server Error'"
          = APICallExcetion ("HTTP error occurred: " +:+ msg))
      \/ APICallExcetion
           "HTTP error occurred: 500, message='Internal Server Error'"
         = APICallExcetion
             ("Request timed out after "
              +:+ pretty.pretty (default 30%Z (Some 5%Z)) +:+ " seconds")
      \/ ((upper "GET" ∉ ["GET"; "POST"; "PUT"; "DELETE"])
          /\ APICallExcetion
               "HTTP error occurred: 500, message='Internal Server Error'"
             = ValueError ("Unsupported request method: " +:+ upper "GET"))
      \/ (exists (verb : string) (payload : request_payload string),
            Scenarios.refusing verb "https://bank.example/balance" []
              payload (default 30%Z (Some 5%Z))
            = inr (Unexpected
                     (APICallExcetion
                        "HTTP error occurred: 500, message='Internal Server Error'"))
            \/ exists response : response string,
                 Scenarios.refusing verb "https://bank.example/balance" []
                   payload (default 30%Z (Some 5%Z)) = inl response
                 /\ response_json response
                    = inr (Unexpected
                             (APICallExcetion
                                "HTTP error occurred: 500, message='Internal Server Error'")))).
Proof.
  split; [reflexivity|]. split; [vm_compute; reflexivity|].
  apply (call_api_raises string Scenarios.refusing 30 Scenarios.keep
           "https://bank.example/balance" "GET" [] (ExtractedParameters ∅)
           false (Some 5%Z)).
  - reflexivity.
  - vm_compute; reflexivity.
Defined.

Lemma api_trigger_transport_failure_witness :
  IntentModel.api_trigger Examples.check_balance = true
  /\ IntentModel.api_details Examples.check_balance
     = Some Examples.balance_api
  /\ upper (ApiDetails.request_type Examples.balance_api) = "GET"
  /\ (forall (verb : string) (payload : request_payload string),
         send string Scenarios.silent verb "https://bank.example/balance"
           [] payload 30
         = inr TimeoutError)
  /\ exists s' : State.t,
       _handle_api_trigger string Examples.plain_render Examples.text_loads
         (call_api_of_intent string Scenarios.silent 30 Scenarios.keep)
         Examples.check_balance Examples.finished
       = Ok s'
       /\ State.bot_message s'
          = Some [Segment.mk
                    "Service is not available. Please try again later."]
       /\ State.extracted_parameters s'
          = State.extracted_parameters Examples.finished.
Proof.
  split; [reflexivity|]. split; [reflexivity|]. split; [reflexivity|].
  split; [reflexivity|].
  destruct (api_trigger_transport_failure string Examples.plain_render
              Examples.text_loads Scenarios.silent 30 Scenarios.keep
              Examples.check_balance Examples.balance_api Examples.finished
              "https://bank.example/balance"
              (ExtractedParameters
                 (State.extracted_parameters Examples.finished)))
    as (s' & Hs' & Hbot & _ & _ & _ & _ & _ & _ & Hex & _).
  - reflexivity.
  - reflexivity.
  - split; reflexivity.
  - reflexivity.
  - apply list_elem_of_here.
  - intros verb payload. exact I.
  - exists s'. split; [exact Hs'|]. split; [exact Hbot|exact Hex].
Defined.

Lemma api_trigger_unsupported_method_witness :
  IntentModel.api_trigger Scenarios.patch_balance = true
  /\ IntentModel.api_details Scenarios.patch_balance
     = Some Scenarios.patch_api
  /\ upper (ApiDetails.request_type Scenarios.patch_api) = "PATCH"
  /\ _handle_api_trigger string Examples.plain_render Examples.text_loads
       (call_api_of_intent string Scenarios.answering 30 Scenarios.keep)
       Scenarios.patch_balance Examples.finished
     = Raise (ValueError "Unsupported request method: PATCH").
Proof.
  split; [reflexivity|]. split; [reflexivity|]. split; [reflexivity|].
  apply (api_trigger_unsupported_method string Examples.plain_render
           Examples.text_loads Scenarios.answering 30 Scenarios.keep
           Scenarios.patch_balance Scenarios.patch_api Examples.finished
           "https://bank.example/balance"
           (ExtractedParameters
              (State.extracted_parameters Examples.finished))).
  - reflexivity.
  - reflexivity.
  - split; reflexivity.
  - reflexivity.
  - intros Hin. vm_compute in Hin.
    repeat (apply elem_of_cons in Hin as [Hin|Hin]; [discriminate Hin|]).
    by apply elem_of_nil in Hin.
Defined.

(** ** A turn with [MemorySaverMongo] *)

Section TurnFacts.
Variable Json : Type.
Variable render :
  string -> gmap string string -> gmap string string -> option Json ->
  result string.
Variable json_loads : string -> result Json.
Variable call_api :
  string -> string -> list (string * string) -> api_parameters Json -> bool ->
  result Json.
Variable isoformat : Z -> string.
Variable fromisoformat : string -> result Z.
Variable rehydrate : UserMessage.t -> result UserMessage.t.
Variable memory_saver_init_state :
  string -> collection -> result (State.t * collection).
Variable nlu_pipeline : option (string -> result Nlu.t).

Lemma get_thread (now : Z) (thread_id : string) (c : collection)
    (s : State.t) :
  get fromisoformat rehydrate now thread_id c = Ok (Some s) ->
  State.thread_id s = thread_id.
Proof.
  unfold get, find_one.
  destruct (List.find _ (rev c)) as [d|] eqn:Hfind; simpl; [|done].
  apply find_some in Hfind as [_ Hd]. apply bool_decide_eq_true_1 in Hd.
  unfold from_dict. cbn [project Document.thread_id]. rewrite Hd.
  cbn [mbind result_bind]. by intros [= <-].
Qed.

(** X19. The next turn starts from what this turn left: with
    [MemorySaverMongo] as memory saver (and an [init_state] that gives a new
    state the thread id it is asked for), after a turn that returns, [get]
    for the thread of the message returns a state with the thread id, the
    context, the intent, the parameter entries, the extracted and the
    missing parameters, [complete] and [current_node] of the state the turn
    returned. *)
Theorem process_turn_persisted :
  forall (now loaded later : Z) (self : DialogueManager.t)
         (message : UserMessage.t) (c : collection) (s' : State.t)
         (c' : collection),
    (forall (thread_id : string) (c0 c1 : collection) (s0 : State.t),
        memory_saver_init_state thread_id c0 = Ok (s0, c1) ->
        State.thread_id s0 = thread_id) ->
    process Json render json_loads call_api collection
      (get fromisoformat rehydrate loaded) memory_saver_init_state
      (memory_saver_mongo_save isoformat) nlu_pipeline now self message c
    = Ok (s', c') ->
    exists s'' : State.t,
      get fromisoformat rehydrate later (UserMessage.thread_id message) c'
      = Ok (Some s'')
      /\ State.thread_id s'' = UserMessage.thread_id message
      /\ State.thread_id s' = UserMessage.thread_id message
      /\ State.context s'' = State.context s'
      /\ State.intent s'' = State.intent s'
      /\ State.parameters s'' = State.parameters s'
      /\ State.extracted_parameters s'' = State.extracted_parameters s'
      /\ State.missing_parameters s'' = State.missing_parameters s'
      /\ State.complete s'' = State.complete s'
      /\ State.current_node s'' = State.current_node s'.
Proof.
  intros now loaded later self message c s' c' Hinit H.
  destruct (process_returned _ _ _ _ _ _ _ _ _ _ _ _ _ _ _ H)
    as (pipeline & found & s0 & store1 & nlu_result & qid & conf & q & s2
        & a2 & _ & Hget & Hload & _ & _ & _ & Hprocessed & Hresponse
        & Hsave).
  cbn zeta in Hprocessed, Hresponse.
  assert (Hs0 : State.thread_id s0 = UserMessage.thread_id message).
  { destruct found as [s|].
    - injection Hload as <- _. by apply get_thread in Hget.
    - by apply Hinit in Hload. }
  assert (Hs2 : State.thread_id s2 = UserMessage.thread_id message).
  { rewrite <- Hs0.
    destruct (update_frame now message s0) as (_ & <- & _).
    match type of Hprocessed with
    | match ?chosen with _ => _ end = _ => destruct chosen as [a|]
    end.
    - by destruct (process_intent_active _ _ _ _ _ Hprocessed)
        as (_ & _ & _ & _ & _ & -> & _).
    - destruct (bool_decide _); [|done].
      by destruct (process_intent_active _ _ _ _ _ Hprocessed)
        as (_ & _ & _ & _ & _ & -> & _). }
  assert (Hs' : State.thread_id s' = UserMessage.thread_id message
                /\ exists d, State.intent s' = Some d).
  { match type of Hresponse with
    | (if ?done then _ else _) = _ => destruct done
    end.
    - apply handle_api_trigger_frame in Hresponse as (seg & segs & ->).
      split; [exact Hs2|]. by eexists.
    - injection Hresponse as <-. split; [exact Hs2|]. by eexists. }
  destruct Hs' as (Htid & d & Hintent).
  injection Hsave as <-.
  unfold get, save. rewrite find_one_last.
  cbn [to_dict Document.thread_id]. rewrite Htid.
  rewrite bool_decide_eq_true_2 by done.
  eexists. split; [reflexivity|]. cbn. rewrite Hintent. by repeat split.
Qed.
End TurnFacts.

Lemma process_turn_persisted_witness :
  exists (s' s'' : State.t) (c' : collection),
    process string Examples.plain_render Examples.text_loads
      Examples.api_down collection
      (get Examples.fromisoformat Examples.rehydrate 6)
      Scenarios.collection_init_state
      (memory_saver_mongo_save Examples.isoformat)
      (Some Scenarios.pipeline) 7 Scenarios.manager Examples.from_boston []
    = Ok (s', c')
    /\ get Examples.fromisoformat Examples.rehydrate 9 "t1" c'
       = Ok (Some s'')
    /\ State.extracted_parameters s'' = State.extracted_parameters s'
    /\ State.missing_parameters s'' = State.missing_parameters s'
    /\ State.current_node s'' = State.current_node s'.
Proof.
  destruct (process string Examples.plain_render Examples.text_loads
              Examples.api_down collection
              (get Examples.fromisoformat Examples.rehydrate 6)
              Scenarios.collection_init_state
              (memory_saver_mongo_save Examples.isoformat)
              (Some Scenarios.pipeline) 7 Scenarios.manager
              Examples.from_boston [])
    as [[s' c']|e] eqn:H; [|by vm_compute in H].
  destruct (process_turn_persisted string Examples.plain_render
              Examples.text_loads Examples.api_down Examples.isoformat
              Examples.fromisoformat Examples.rehydrate
              Scenarios.collection_init_state (Some Scenarios.pipeline)
              7 6 9 Scenarios.manager Examples.from_boston [] s' c')
    as (s'' & Hget & _ & _ & _ & _ & _ & Hex & Hm & _ & Hcn).
  - intros thread_id c0 c1 s0 [= <- _]. reflexivity.
  - exact H.
  - exists s', s'', c'. split; [reflexivity|]. split; [exact Hget|].
    split; [exact Hex|]. split; [exact Hm|exact Hcn].
Defined.
